(** * test-aci-auth-server: the request handler and the control loop

    A shallow embedding of the monolithic revision of the test server
    (package main: [serverHandler.ServeHTTP], [getAuthPayload],
    [startServer], [stopServer], [main], [loop]), of the artifact builder
    ([prepareACI], [createTree], [buildProg], [buildACI]) and of what the
    other revisions do differently, with the properties of the
    request-handling state machine, of the process and of the builder.

    Strings are byte strings ([string] of [ascii]), as Go's are.  The HTTP
    header is a finite map from canonical keys to value lists, as
    [http.Header] is.  Channel sends, response-writer calls and the call
    of the artifact builder are recorded, in program order, in a trace. *)

From Stdlib Require Import String Ascii List Bool Arith ZArith Lia.
From stdpp Require Import base gmap strings list.
Import ListNotations.

Local Open Scope string_scope.
Local Open Scope list_scope.

(** ** Library functions the program calls *)

Module GoStrings.

(** The double-quote byte, which Go's raw string literals in the handler
    contain. *)
Definition dq : string := String (ascii_of_nat 34) EmptyString.

(** [strings.Split(s, sep)] for a non-empty [sep]: [skip] counts the bytes
    of a separator just matched that remain to be dropped, [cur] is the
    piece being collected. *)
Fixpoint Split_from (sep : string) (skip : nat) (cur : string) (s : string)
  {struct s} : list string :=
  match s with
  | EmptyString => [cur]
  | String c s' =>
      match skip with
      | S k => Split_from sep k cur s'
      | O =>
          if String.prefix sep s
          then cur :: Split_from sep (String.length sep - 1) "" s'
          else Split_from sep 0 (cur +:+ String c "") s'
      end
  end.

(** With an empty separator Go explodes [s] into its UTF-8 sequences; the
    model explodes into bytes.  No call of this program passes an empty
    separator. *)
Fixpoint explode (s : string) : list string :=
  match s with
  | EmptyString => []
  | String c s' => String c "" :: explode s'
  end.

Definition Split (s sep : string) : list string :=
  match sep with
  | EmptyString => explode s
  | _ => Split_from sep 0 "" s
  end.

(** Whether the byte [c] occurs in [s]. *)
Fixpoint contains_byte (c : ascii) (s : string) : bool :=
  match s with
  | EmptyString => false
  | String c' s' => Ascii.eqb c c' || contains_byte c s'
  end.

(** The line feed and the tab of the raw string literals of the program. *)
Definition nl : string := String (ascii_of_nat 10) EmptyString.
Definition tab : string := String (ascii_of_nat 9) EmptyString.

(** A text between double quotes, as the templates of the program have
    it. *)
Definition quoted (s : string) : string := dq +:+ s +:+ dq.

(** [strings.Join(elems, sep)]. *)
Fixpoint Join (elems : list string) (sep : string) : string :=
  match elems with
  | [] => ""
  | [e] => e
  | e :: rest => e +:+ sep +:+ Join rest sep
  end.

End GoStrings.

Module GoFilepath.

Definition slash : ascii := ascii_of_nat 47.

Definition IsPathSeparator (c : ascii) : bool := Ascii.eqb c slash.

(** The loops of [filepath.Base] run from the end of the path; the model
    runs them from the front of the reversed byte list. *)
Fixpoint strip_separators (l : list ascii) : list ascii :=
  match l with
  | c :: l' => if IsPathSeparator c then strip_separators l' else l
  | [] => []
  end.

Fixpoint last_element (l : list ascii) : list ascii :=
  match l with
  | c :: l' => if IsPathSeparator c then [] else c :: last_element l'
  | [] => []
  end.

(** [filepath.Base(path)] on a Unix system (no volume name). *)
Definition Base (path : string) : string :=
  match path with
  | EmptyString => "."
  | _ =>
      let stripped := strip_separators (rev (list_ascii_of_string path)) in
      match last_element stripped with
      | [] => String slash ""
      | e => string_of_list_ascii (rev e)
      end
  end.

(** [filepath.Clean] on a Unix system, element by element: empty elements
    and [.] go, [..] takes the element before it with it, or goes itself
    at the root, or stays at the front of a relative path.  [stack] holds
    the elements kept so far, last first. *)
Fixpoint clean_elements (elems stack : list string) (rooted : bool) : list string :=
  match elems with
  | [] => rev stack
  | e :: rest =>
      if String.eqb e "" || String.eqb e "." then clean_elements rest stack rooted
      else if String.eqb e ".." then
        match stack with
        | top :: below =>
            if String.eqb top ".." then clean_elements rest (e :: stack) rooted
            else clean_elements rest below rooted
        | [] =>
            if rooted then clean_elements rest [] rooted
            else clean_elements rest [e] rooted
        end
      else clean_elements rest (e :: stack) rooted
  end.

Definition Clean (path : string) : string :=
  match path with
  | EmptyString => "."
  | String c _ =>
      let rooted := IsPathSeparator c in
      let out := GoStrings.Join (clean_elements (GoStrings.Split path "/") [] rooted) "/" in
      if rooted then String slash out
      else match out with EmptyString => "." | _ => out end
  end.

(** [filepath.Join(elem...)]: the elements from the first non-empty one on,
    joined with slashes and cleaned; the empty string if all are empty. *)
Fixpoint Join (elem : list string) : string :=
  match elem with
  | [] => ""
  | EmptyString :: rest => Join rest
  | _ => Clean (GoStrings.Join elem "/")
  end.

(** [n] slashes. *)
Fixpoint slashes (n : nat) : string :=
  match n with
  | O => EmptyString
  | S n' => String slash (slashes n')
  end.

End GoFilepath.

Module GoHTTP.

(** [http.Header]: canonical key to the list of its values. *)
Abbreviation Header := (gmap string (list string)).

(** [Header.Get(key)] for a key already in canonical form: the first value
    of the key, or the empty string. *)
Definition Get (h : Header) (key : string) : string :=
  match h !! key with
  | Some (v :: _) => v
  | _ => ""
  end.

Definition StatusOK : nat := 200.
Definition StatusBadRequest : nat := 400.
Definition StatusUnauthorized : nat := 401.
Definition StatusNotFound : nat := 404.
Definition StatusMethodNotAllowed : nat := 405.
Definition StatusInternalServerError : nat := 500.

(** The fields of [url.URL] the handler reads: [Path], and the rendering
    [String()] of the whole URL, carried as data. *)
Record URL := { Path : string; URL_String : string }.

Record Request := { Method : string; Url : URL; Hdr : Header }.

End GoHTTP.

Module GoBase64.

(** The value of a byte in the standard alphabet
    [A-Z a-z 0-9 + /], if it has one. *)
Definition decodeMap (c : ascii) : option N :=
  let n := N_of_ascii c in
  if ((65 <=? n) && (n <=? 90))%N then Some (n - 65)%N
  else if ((97 <=? n) && (n <=? 122))%N then Some (n - 71)%N
  else if ((48 <=? n) && (n <=? 57))%N then Some (n + 4)%N
  else if (n =? 43)%N then Some 62%N
  else if (n =? 47)%N then Some 63%N
  else None.

Definition padChar : ascii := ascii_of_nat 61.

Definition is_newline (c : ascii) : bool :=
  Ascii.eqb c (ascii_of_nat 13) || Ascii.eqb c (ascii_of_nat 10).

Definition byte_at (n : N) (shift : N) : ascii :=
  ascii_of_N (N.land (N.shiftr n shift) 255).

(** One quantum of four input bytes gives three output bytes; the last
    quantum may end in one or two padding bytes and then gives two or one.
    Nothing may follow the padding, and an incomplete quantum is an error
    (the standard encoding requires padding). *)
Fixpoint decode_quanta (l : list ascii) : option (list ascii) :=
  match l with
  | [] => Some []
  | a :: b :: c :: d :: rest =>
      match decodeMap a, decodeMap b with
      | Some va, Some vb =>
          if Ascii.eqb c padChar then
            match Ascii.eqb d padChar, rest with
            | true, [] =>
                let n := (N.shiftl va 18 + N.shiftl vb 12)%N in
                Some [byte_at n 16]
            | _, _ => None
            end
          else
            match decodeMap c with
            | Some vc =>
                if Ascii.eqb d padChar then
                  match rest with
                  | [] =>
                      let n := (N.shiftl va 18 + N.shiftl vb 12 + N.shiftl vc 6)%N in
                      Some [byte_at n 16; byte_at n 8]
                  | _ => None
                  end
                else
                  match decodeMap d, decode_quanta rest with
                  | Some vd, Some out =>
                      let n := (N.shiftl va 18 + N.shiftl vb 12 + N.shiftl vc 6 + vd)%N in
                      Some (byte_at n 16 :: byte_at n 8 :: byte_at n 0 :: out)
                  | _, _ => None
                  end
            | None => None
            end
      | _, _ => None
      end
  | _ => None
  end.

(** [base64.StdEncoding.DecodeString]: carriage returns and line feeds are
    skipped; [None] stands for a non-nil error. *)
Definition DecodeString (s : string) : option string :=
  match decode_quanta (filter (fun c => negb (is_newline c)) (list_ascii_of_string s)) with
  | Some out => Some (string_of_list_ascii out)
  | None => None
  end.

End GoBase64.

Module GoStrconv.

Definition backslash : ascii := ascii_of_nat 92.

(** [strconv.Quote], which the verb [%q] applies to a string, on strings of
    printable ASCII bytes: the text between double quotes, with a backslash
    before each double quote and backslash. *)
Fixpoint quote_body (s : string) : string :=
  match s with
  | EmptyString => EmptyString
  | String c s' =>
      if Ascii.eqb c (ascii_of_nat 34) || Ascii.eqb c backslash
      then String backslash (String c (quote_body s'))
      else String c (quote_body s')
  end.

Definition Quote (s : string) : string :=
  GoStrings.dq +:+ quote_body s +:+ GoStrings.dq.

End GoStrconv.

(** ** The artifact builder

    [prepareACI] and the three functions it calls work on the file system
    and run external programs.  The operating system is an interface: a
    call changes the world and gives a reply.  The calls made, with their
    replies, are recorded in program order. *)

Module Builder.
Import GoStrings.

Inductive syscall :=
| Mkdir (name : string) (perm : N)
| WriteFile (filename : string) (data : string) (perm : N)
| ReadFile (filename : string)
| Remove (name : string)
| RemoveAll (path : string)
| LookPath (file : string)
| Run (path : string) (args : list string) (dir : string)
| Now_MarshalBinary.

(** What a call gives back: the text of the error, if any; the value
    (the contents read, the path found, the bytes of the time); for [Run],
    what the command wrote to the two buffers. *)
Record reply := {
  r_err : option string;
  r_data : string;
  r_stdout : string;
  r_stderr : string
}.

Class OS (world : Type) := sys : syscall -> world -> reply * world.

Section Build.

Context {world : Type} `{!OS world}.

Definition state : Type := (list (syscall * reply) * world)%type.
Definition Prog (A : Type) : Type := state -> A * state.

Definition ret {A} (a : A) : Prog A := fun st => (a, st).

Definition bind {A B} (c : Prog A) (k : A -> Prog B) : Prog B :=
  fun st => let (a, st') := c st in k a st'.

Definition call (c : syscall) : Prog reply :=
  fun st => let (r, w') := sys c (snd st) in (r, (fst st ++ [(c, r)], w')).

Declare Scope prog_scope.
Delimit Scope prog_scope with prog.
Notation "'do' x <- c ; k" := (bind c (fun x => k))
  (at level 20, x name, c at level 100, k at level 200, only parsing) : prog_scope.
Local Open Scope prog_scope.

(** A deferred call runs when the function body has produced its result;
    what it returns is dropped. *)
Definition defer {A} (d : Prog unit) (body : Prog A) : Prog A :=
  do x <- body;
  do _ <- d;
  ret x.

Definition manifestStr : string :=
  "{" +:+ quoted "acKind" +:+ ":" +:+ quoted "ImageManifest" +:+ ","
  +:+ quoted "acVersion" +:+ ":" +:+ quoted "0.5.1+git" +:+ ","
  +:+ quoted "name" +:+ ":" +:+ quoted "testprog" +:+ ","
  +:+ quoted "app" +:+ ":{" +:+ quoted "exec" +:+ ":[" +:+ quoted "/prog" +:+ "],"
  +:+ quoted "user" +:+ ":" +:+ quoted "0" +:+ ","
  +:+ quoted "group" +:+ ":" +:+ quoted "0" +:+ "}}".

Definition testProgSrcStr : string :=
  nl +:+ "package main" +:+ nl
  +:+ nl
  +:+ "import (" +:+ nl
  +:+ tab +:+ quoted "fmt" +:+ nl
  +:+ tab +:+ quoted "time" +:+ nl
  +:+ ")" +:+ nl
  +:+ nl
  +:+ "func main() {" +:+ nl
  +:+ tab +:+ "for i := 3; i > 0; i -= 1 {" +:+ nl
  +:+ tab +:+ tab +:+ "fmt.Println(i)" +:+ nl
  +:+ tab +:+ tab +:+ "time.Sleep(time.Second)" +:+ nl
  +:+ tab +:+ "}" +:+ nl
  +:+ tab +:+ "fmt.Println(" +:+ quoted "BANG!" +:+ ")" +:+ nl
  +:+ "}" +:+ nl.

(** The permissions [0755] and [0644]. *)
Definition perm_dir : N := 493.
Definition perm_file : N := 420.

(** What an external command reports when it fails. *)
Definition run_failure (what : string) (r : reply) : string :=
  "failed to execute `" +:+ what +:+ "`: " +:+ default "" (r_err r) +:+ nl
  +:+ "stdout:" +:+ nl +:+ r_stdout r +:+ nl +:+ nl
  +:+ "stderr:" +:+ nl +:+ r_stderr r +:+ ")".

(** [createTree]: the directory made, or the empty string, and the
    error. *)
Definition createTree : Prog (string * option string) :=
  let aciDir := "ACI" in
  let rootDir := GoFilepath.Join [aciDir; "rootfs"] in
  let manifestFile := GoFilepath.Join [aciDir; "manifest"] in
  let srcFile := GoFilepath.Join [rootDir; "prog.go"] in
  do r <- call (Mkdir aciDir perm_dir);
  match r_err r with
  | Some e => ret ("", Some ("failed to create ACI directory: " +:+ e))
  | None =>
      do r <- call (Mkdir rootDir perm_dir);
      match r_err r with
      | Some e => ret (aciDir, Some ("failed to create rootfs directory: " +:+ e))
      | None =>
          do r <- call (WriteFile manifestFile manifestStr perm_file);
          match r_err r with
          | Some e => ret ("", Some ("failed to write manifest: " +:+ e))
          | None =>
              do r <- call (WriteFile srcFile testProgSrcStr perm_file);
              match r_err r with
              | Some e => ret ("", Some ("failed to write go source: " +:+ e))
              | None => ret (aciDir, None)
              end
          end
      end
  end.

Definition buildProg (aciDir : string) : Prog (option string) :=
  do found <- call (LookPath "go");
  match r_err found with
  | Some e => ret (Some ("failed to find `go`: " +:+ e))
  | None =>
      let compiler := r_data found in
      do r <- call (Run compiler ["go"; "build"; "-o"; "prog"; "./prog.go"]
                      (GoFilepath.Join [aciDir; "rootfs"]));
      match r_err r with
      | Some _ => ret (Some (run_failure "go build" r))
      | None => ret None
      end
  end.

(** [buildACI]: the name of the image file, or the empty string, and the
    error. *)
Definition buildACI (aciDir : string) : Prog (string * option string) :=
  do found <- call (LookPath "actool");
  match r_err found with
  | Some e => ret ("", Some ("failed to find `actool`: " +:+ e))
  | None =>
      let actool := r_data found in
      do now <- call Now_MarshalBinary;
      match r_err now with
      | Some e =>
          ret ("", Some ("failed to serialize current date to bytes: " +:+ e))
      | None =>
          let timedata := r_data now in
          do r <- call (WriteFile (GoFilepath.Join [aciDir; "rootfs"; "stamp"])
                          timedata perm_file);
          match r_err r with
          | Some e => ret ("", Some ("failed to write a stamp: " +:+ e))
          | None =>
              let fn := "prog-build.aci" in
              do r <- call (Run actool ["actool"; "build"; aciDir; fn] "");
              match r_err r with
              | Some _ => ret ("", Some (run_failure "actool build" r))
              | None => ret (fn, None)
              end
          end
      end
  end.

(** [prepareACI]: the bytes of the image, or the text of the error. *)
Definition prepareACI : Prog (string + string) :=
  do tree <- createTree;
  let dir := fst tree in
  defer (if String.eqb dir "" then ret tt
         else do _ <- call (RemoveAll dir); ret tt)
    (match snd tree with
     | Some e => ret (inr ("failed to build ACI tree: " +:+ e))
     | None =>
         do failed <- buildProg dir;
         match failed with
         | Some e => ret (inr ("failed to build test program: " +:+ e))
         | None =>
             do built <- buildACI dir;
             match snd built with
             | Some e => ret (inr ("failed to build ACI: " +:+ e))
             | None =>
                 let fn := fst built in
                 defer (do _ <- call (Remove fn); ret tt)
                   (do r <- call (ReadFile fn);
                    match r_err r with
                    | Some e => ret (inr ("failed to read ACI to memory: " +:+ e))
                    | None => ret (inl (r_data r))
                    end)
             end
         end
     end).

(** A run from a world, with nothing recorded yet: the result, the calls
    with their replies, the world left. *)
Definition run_prepareACI (w : world) : (string + string) * list (syscall * reply) * world :=
  let '(res, (t, w')) := prepareACI ([], w) in (res, t, w').

Definition prepareACI_result (w : world) : string + string :=
  fst (fst (run_prepareACI w)).

Definition prepareACI_record (w : world) : list (syscall * reply) :=
  snd (fst (run_prepareACI w)).

End Build.

(** The calls of a record, without the replies. *)
Definition calls (t : list (syscall * reply)) : list syscall := map fst t.

Definition failed (cr : syscall * reply) : bool :=
  match r_err (snd cr) with Some _ => true | None => false end.

(** The clean-up calls, whose errors the builder drops. *)
Definition is_cleanup (c : syscall) : bool :=
  match c with Remove _ | RemoveAll _ => true | _ => false end.

(** A call other than clean-up that failed. *)
Definition broke (cr : syscall * reply) : bool :=
  negb (is_cleanup (fst cr)) && failed cr.

(** What is recorded after the first call that broke. *)
Fixpoint after_break (t : list (syscall * reply)) : list (syscall * reply) :=
  match t with
  | [] => []
  | cr :: t' => if broke cr then t' else after_break t'
  end.

(** The calls that change or delete files, with the path they touch. *)
Definition touched (c : syscall) : option string :=
  match c with
  | Mkdir p _ | WriteFile p _ _ | Remove p | RemoveAll p => Some p
  | _ => None
  end.

(** *** A small file system, to run the builder on

    Files and directories by path, the programs installed, the bytes of
    the time.  [go build] leaves [prog] in its directory, [actool build]
    writes the image file. *)
Record toy := {
  entries : gmap string (option string);
  installed : list string;
  clock : string
}.

Definition ok (d : string) : reply :=
  {| r_err := None; r_data := d; r_stdout := ""; r_stderr := "" |}.

Definition ko (e : string) : reply :=
  {| r_err := Some e; r_data := ""; r_stdout := ""; r_stderr := e |}.

Definition with_entries (w : toy) (m : gmap string (option string)) : toy :=
  {| entries := m; installed := installed w; clock := clock w |}.

Definition under (dir path : string) : bool :=
  String.eqb path dir || String.prefix (dir +:+ "/") path.

Definition toy_sys (c : syscall) (w : toy) : reply * toy :=
  match c with
  | Mkdir p _ =>
      match entries w !! p with
      | Some _ => (ko ("mkdir " +:+ p +:+ ": file exists"), w)
      | None => (ok "", with_entries w (<[p := None]> (entries w)))
      end
  | WriteFile p d _ =>
      match entries w !! p with
      | Some None => (ko ("open " +:+ p +:+ ": is a directory"), w)
      | _ => (ok "", with_entries w (<[p := Some d]> (entries w)))
      end
  | ReadFile p =>
      match entries w !! p with
      | Some (Some d) => (ok d, w)
      | _ => (ko ("open " +:+ p +:+ ": no such file or directory"), w)
      end
  | Remove p =>
      match entries w !! p with
      | Some _ => (ok "", with_entries w (delete p (entries w)))
      | None => (ko ("remove " +:+ p +:+ ": no such file or directory"), w)
      end
  | RemoveAll p =>
      (ok "",
       with_entries w
         (filter (fun kv : string * option string => under p (fst kv) = false) (entries w)))
  | LookPath f =>
      if existsb (String.eqb f) (installed w) then (ok ("/usr/bin/" +:+ f), w)
      else (ko ("exec: " +:+ f +:+ ": executable file not found in $PATH"), w)
  | Run path args dir =>
      if String.eqb path "/usr/bin/go" then
        (ok "", with_entries w (<[dir +:+ "/prog" := Some "program"]> (entries w)))
      else if String.eqb path "/usr/bin/actool" then
        (ok "",
         with_entries w
           (<[nth 3 args "" := Some ("image of " +:+ nth 2 args "")]> (entries w)))
      else (ko "exit status 1", w)
  | Now_MarshalBinary => (ok (clock w), w)
  end.

#[export] Instance toy_OS : OS toy := toy_sys.

Definition toy_ready : toy :=
  {| entries := ∅; installed := ["go"; "actool"]; clock := "now" |}.

End Builder.

(** ** The builder of the earlier revision

    The revision with [main] alone has a shorter [prepareACI]: the tree
    [ACI/rootfs] is there beforehand and stays, commands run without
    buffers, errors are passed on as they come. *)

Module BuilderEarlier.
Import GoStrings Builder.

Section Build.

Context {world : Type} `{!OS world}.

Declare Scope prog_scope.
Notation "'do' x <- c ; k" := (bind c (fun x => k))
  (at level 20, x name, c at level 100, k at level 200, only parsing) : prog_scope.
Local Open Scope prog_scope.

Definition buildProg : Prog (option string) :=
  do found <- call (LookPath "go");
  match r_err found with
  | Some e => ret (Some e)
  | None =>
      let compiler := r_data found in
      do r <- call (Run compiler ["go"; "build"; "-o"; "prog"; "./prog.go"] "ACI/rootfs");
      ret (r_err r)
  end.

Definition buildACI : Prog (string * option string) :=
  do found <- call (LookPath "actool");
  match r_err found with
  | Some e => ret ("", Some e)
  | None =>
      let actool := r_data found in
      do now <- call Now_MarshalBinary;
      match r_err now with
      | Some e => ret ("", Some e)
      | None =>
          let timedata := r_data now in
          do r <- call (WriteFile "ACI/rootfs/stamp" timedata perm_file);
          match r_err r with
          | Some e => ret ("", Some e)
          | None =>
              let fn := "prog-build.aci" in
              do r <- call (Run actool ["actool"; "build"; "ACI"; fn] "");
              ret (fn, r_err r)
          end
      end
  end.

(** [prepareACI]: what [ioutil.ReadFile] returned, bytes and error, or no
    bytes and the error of a step before. *)
Definition prepareACI : Prog (string * option string) :=
  do failed <- buildProg;
  match failed with
  | Some e => ret ("", Some e)
  | None =>
      do built <- buildACI;
      match snd built with
      | Some e => ret ("", Some e)
      | None =>
          let fn := fst built in
          defer (do _ <- call (Remove fn); ret tt)
            (do r <- call (ReadFile fn);
             ret (r_data r, r_err r))
      end
  end.

End Build.

End BuilderEarlier.

(** ** The server *)

Module Server.
Import GoStrings GoFilepath GoHTTP.

(** What a handler run does to the outside, in program order: calls on the
    response writer [w], sends on the channels [h.stop] and [h.msg], and the
    call of the artifact builder. *)
Inductive event :=
| WriteHeader (code : nat)
| Write (data : string)
| SendStop
| SendMsg (m : string)
| CallPrepareACI.

(** How a block of the handler ends: control goes on to the next statement,
    the handler returns, or it panics. *)
Inductive flow (A : Type) :=
| Next (a : A)
| Returned
| Panicked (v : string).
Arguments Next {A} a.
Arguments Returned {A}.
Arguments Panicked {A} v.

Definition M (A : Type) : Type := (list event * flow A)%type.

Definition ret {A} (a : A) : M A := ([], Next a).

Definition bind {A B} (c : M A) (k : A -> M B) : M B :=
  match c with
  | (t, Next a) => let (t', f) := k a in (t ++ t', f)
  | (t, Returned) => (t, Returned)
  | (t, Panicked v) => (t, Panicked v)
  end.

Definition emit (e : event) : M unit := ([e], Next tt).
Definition return_ {A} : M A := ([], Returned).
Definition panic {A} (v : string) : M A := ([], Panicked v).

Declare Scope go_scope.
Delimit Scope go_scope with go.
Notation "'do' x <- c ; k" := (bind c (fun x => k))
  (at level 20, x name, c at level 100, k at level 200, only parsing) : go_scope.

Definition trace {A} (c : M A) : list event := fst c.
Definition outcome {A} (c : M A) : flow A := snd c.

(** *** The response a client sees

    [net/http]'s response writer keeps the first status written; a [Write]
    before any [WriteHeader] writes status 200 first; a handler that returns
    without writing gets status 200. *)
Record ResponseWriter := { wroteHeader : option nat; written : string }.

Definition apply_event (w : ResponseWriter) (e : event) : ResponseWriter :=
  match e with
  | WriteHeader c =>
      match wroteHeader w with
      | None => {| wroteHeader := Some c; written := written w |}
      | Some _ => w
      end
  | Write d =>
      {| wroteHeader := Some (default StatusOK (wroteHeader w));
         written := written w +:+ d |}
  | _ => w
  end.

Definition respond (t : list event) : ResponseWriter :=
  fold_left apply_event t {| wroteHeader := None; written := "" |}.

Definition status (t : list event) : nat :=
  default StatusOK (wroteHeader (respond t)).

Definition body (t : list event) : string := written (respond t).

(** The diagnostic messages sent on [h.msg], in order. *)
Fixpoint msgs (t : list event) : list string :=
  match t with
  | [] => []
  | SendMsg m :: t' => m :: msgs t'
  | _ :: t' => msgs t'
  end.

(** The number of shutdown signals sent on [h.stop]. *)
Fixpoint stops (t : list event) : nat :=
  match t with
  | [] => 0
  | SendStop :: t' => S (stops t')
  | _ :: t' => stops t'
  end.

(** The number of calls of the artifact builder. *)
Fixpoint builds (t : list event) : nat :=
  match t with
  | [] => 0
  | CallPrepareACI :: t' => S (builds t')
  | _ :: t' => builds t'
  end.

Record httpError := { code : nat; message : string }.

(** The handler; its channels [stop] and [msg] are where the [SendStop] and
    [SendMsg] events go. *)
Record serverHandler := { auth : string }.

Definition getAuthPayload (r : Request) (authType : string)
  : string + httpError :=
  let auth := Get (Hdr r) "Authorization" in
  if String.eqb auth "" then
    inr {| code := StatusUnauthorized; message := "No auth" |}
  else
    let parts := Split auth " " in
    if negb (Nat.eqb (length parts) 2) then
      inr {| code := StatusBadRequest; message := "Malformed auth" |}
    else if negb (String.eqb (nth 0 parts "") authType) then
      inr {| code := StatusUnauthorized; message := "Wrong auth" |}
    else inl (nth 1 parts "").

Section Handler.

(** [strconv.Quote], behind the verb [%q]. *)
Variable quote : string -> string.
(** [base64.StdEncoding.DecodeString]; [None] is a non-nil error. *)
Variable decodeBase64 : string -> option string.
(** What the call of [prepareACI] returns in the run at hand: the bytes of
    the image, or the text of the error. *)
Variable prepareACI : string + string.

Local Open Scope go_scope.

(** The switch on [r.Method]. *)
Definition ServeHTTP_method (r : Request) : M unit :=
  if String.eqb (Method r) "POST" then
    do _ <- emit (WriteHeader StatusOK);
    do _ <- emit SendStop;
    return_
  else if String.eqb (Method r) "GET" then
    ret tt
  else
    do _ <- emit (WriteHeader StatusMethodNotAllowed);
    return_.

Definition no_authorization (m : string) : string :=
  "No " +:+ dq +:+ "Authorization" +:+ dq +:+ " header: " +:+ m.

Definition badly_formed : string :=
  "Badly formed " +:+ dq +:+ "Authorization" +:+ dq +:+ " header".

(** The switch on [h.auth]. *)
Definition ServeHTTP_auth (h : serverHandler) (r : Request) : M unit :=
  if String.eqb (auth h) "none" then
    ret tt
  else if String.eqb (auth h) "basic" then
    match getAuthPayload r "Basic" with
    | inr httpErr =>
        do _ <- emit (WriteHeader (code httpErr));
        do _ <- emit (SendMsg (no_authorization (message httpErr)));
        return_
    | inl payload =>
        match decodeBase64 payload with
        | None =>
            do _ <- emit (WriteHeader StatusBadRequest);
            do _ <- emit (SendMsg badly_formed);
            return_
        | Some creds =>
            let parts := Split creds ":" in
            if negb (Nat.eqb (length parts) 2) then
              do _ <- emit (WriteHeader StatusBadRequest);
              do _ <- emit (SendMsg (badly_formed +:+ " (2)"));
              return_
            else
              let user := nth 0 parts "" in
              let password := nth 1 parts "" in
              if negb (String.eqb user "bar") || negb (String.eqb password "baz") then
                do _ <- emit (WriteHeader StatusUnauthorized);
                do _ <- emit (SendMsg ("Bad credentials: " +:+ quote creds));
                return_
              else ret tt
        end
    end
  else if String.eqb (auth h) "oauth" then
    match getAuthPayload r "Bearer" with
    | inr httpErr =>
        do _ <- emit (WriteHeader (code httpErr));
        do _ <- emit (SendMsg (no_authorization (message httpErr)));
        return_
    | inl payload =>
        if negb (String.eqb payload "sometoken") then
          do _ <- emit (WriteHeader StatusUnauthorized);
          do _ <- emit (SendMsg ("Bad token: " +:+ quote payload));
          return_
        else ret tt
    end
  else panic "Woe is me!".

(** The part after authentication: the switch on the base of the path. *)
Definition ServeHTTP_serve (r : Request) : M unit :=
  do _ <- emit (SendMsg ("Trying to serve " +:+ quote (URL_String (Url r))));
  if String.eqb (Base (Path (Url r))) "prog.aci" then
    do _ <- emit (SendMsg "  serving");
    do built <- ([CallPrepareACI], Next prepareACI);
    match built with
    | inr err =>
        do _ <- emit (WriteHeader StatusInternalServerError);
        emit (SendMsg ("    failed (" +:+ err +:+ ")"))
    | inl data =>
        do _ <- emit (Write data);
        emit (SendMsg "    done.")
    end
  else
    do _ <- emit (SendMsg "  not found.");
    emit (WriteHeader StatusNotFound).

Definition ServeHTTP (h : serverHandler) (r : Request) : M unit :=
  do _ <- ServeHTTP_method r;
  do _ <- ServeHTTP_auth h r;
  ServeHTTP_serve r.

(** The auth switch falls through without a word: the request goes on to be
    served. *)
Definition accepted (h : serverHandler) (r : Request) : Prop :=
  ServeHTTP_auth h r = ret tt.

(** The handler has answered with status [c] and returned: nothing was
    served. *)
Definition rejected_with (c : nat) (x : M unit) : Prop :=
  status (trace x) = c /\ outcome x = Returned.

(** *** Start-up *)

Definition typesStr : string := "none, basic, oauth".

(** The [for _, v := range types] loop of [startServer]: the first type
    equal to the argument, or the empty string. *)
Fixpoint find_type (types : list string) (arg : string) : string :=
  match types with
  | [] => ""
  | v :: rest => if String.eqb v arg then v else find_type rest arg
  end.

(** [startServer] up to the construction of the handler: an error, or the
    handler the test server is started with. *)
Definition startServer_handler (args : list string) : string + serverHandler :=
  match args with
  | [] => inl ("expected a type - " +:+ typesStr)
  | arg0 :: _ =>
      let types := Split typesStr ", " in
      let auth := find_type types arg0 in
      if String.eqb auth "" then
        inl ("wrong type " +:+ quote arg0 +:+ ", should, be " +:+ typesStr)
      else inr {| auth := auth |}
  end.

(** The three types [startServer] knows. *)
Definition known_type (a : string) : Prop := In a (Split typesStr ", ").

(** *** The control loop *)

(** The case of the [select] that fires in one iteration of [loop]. *)
Inductive recv :=
| RecvStop
| RecvMsg (msg : string).

(** [loop] over the receptions that occur, in order: the lines it prints,
    and whether it has returned ([true]) or is blocked in [select] with
    nothing left to receive ([false]). *)
Fixpoint loop (sched : list recv) : list string * bool :=
  match sched with
  | [] => ([], false)
  | RecvStop :: _ => ([], true)
  | RecvMsg msg :: rest =>
      let (out, returned) := loop rest in (msg :: out, returned)
  end.

(** The end of [startServer]: [loop(stop, msg)], and [Byebye] once it has
    returned. *)
Definition startServer_loop (sched : list recv) : list string * bool :=
  let (out, returned) := loop sched in
  if returned then (out ++ ["Byebye"], true) else (out, false).

(** The control loop in the words of the specification: two states, and
    from [Running] one transition for each kind of reception. *)
Inductive ControlState := Running | Stopped.

Inductive ControlLoop_transition
  : ControlState -> recv -> list string -> ControlState -> Prop :=
| shutdown_signal : ControlLoop_transition Running RecvStop ["Byebye"] Stopped
| diagnostic msg : ControlLoop_transition Running (RecvMsg msg) [msg] Running.

(** The receptions a run consumes and the lines it prints on the way from
    one state to another. *)
Inductive ControlLoop_run
  : ControlState -> list recv -> list string -> ControlState -> Prop :=
| run_here s : ControlLoop_run s [] [] s
| run_step s e out s' rest out' s'' :
    ControlLoop_transition s e out s' ->
    ControlLoop_run s' rest out' s'' ->
    ControlLoop_run s (e :: rest) (out ++ out') s''.

(** The receptions before the first shutdown signal, and that signal if
    there is one: what [loop] consumes of a schedule. *)
Fixpoint consumed (sched : list recv) : list recv :=
  match sched with
  | [] => []
  | RecvStop :: _ => [RecvStop]
  | RecvMsg msg :: rest => RecvMsg msg :: consumed rest
  end.

Definition state_of (returned : bool) : ControlState :=
  if returned then Stopped else Running.

(** *** Requests used as instances *)

Definition request (method path : string) (authorization : option string)
  : Request :=
  {| Method := method;
     Url := {| Path := path; URL_String := path |};
     Hdr := match authorization with
            | Some v => {[ "Authorization" := [v] ]}
            | None => ∅
            end |}.

Definition h_none : serverHandler := {| auth := "none" |}.
Definition h_basic : serverHandler := {| auth := "basic" |}.
Definition h_oauth : serverHandler := {| auth := "oauth" |}.

(** *** Handlers and the control loop together *)

(** The channels [stop] and [msg] are unbuffered and [loop] is their only
    receiver: what the handlers send, in the order they send it, is what
    [loop] receives. *)
Fixpoint receptions (t : list event) : list recv :=
  match t with
  | [] => []
  | SendStop :: t' => RecvStop :: receptions t'
  | SendMsg m :: t' => RecvMsg m :: receptions t'
  | _ :: t' => receptions t'
  end.

(** The events of the runs of a handler on a sequence of requests, one run
    after the other. *)
Definition serve_all {A} (handle : A -> M unit) (rs : list A) : list event :=
  flat_map (fun r => trace (handle r)) rs.

(** *** The process: [printCreds], [startServer], [stopServer], [main] *)

(** What the process does to the outside: the test server started and
    closed, text printed on standard output, the POST of [stopServer] and
    the closing of its response body, [os.Exit]. *)
Inductive proc_event :=
| StartTLS
| Close
| Print (text : string)
| Post (host : string)
| CloseBody
| Exit (code : nat).

(** How [startServer] ends: it returns an error or nil, it is blocked in
    [loop] with nothing left to receive, or it panics. *)
Inductive ended :=
| Ret (err : option string)
| Waiting
| Crashed (v : string).

(** The text [printCreds] prints. *)
Definition printCreds (host auth creds : string) : string :=
  nl +:+ "{" +:+ nl +:+
  tab +:+ quoted "rktKind" +:+ ": " +:+ quoted "auth" +:+ "," +:+ nl +:+
  tab +:+ quoted "rktVersion" +:+ ": " +:+ quoted "v1" +:+ "," +:+ nl +:+
  tab +:+ quoted "domains" +:+ ": [" +:+ quoted host +:+ "]," +:+ nl +:+
  tab +:+ quoted "type" +:+ ": " +:+ quoted auth +:+ "," +:+ nl +:+
  tab +:+ quoted "credentials" +:+ ":" +:+ nl +:+
  tab +:+ "{" +:+ nl +:+
  tab +:+ tab +:+ creds +:+ nl +:+
  tab +:+ "}" +:+ nl +:+
  "}" +:+ nl +:+ nl.

Definition basic_creds : string :=
  quoted "user" +:+ ": " +:+ quoted "bar" +:+ "," +:+ nl +:+
  tab +:+ tab +:+ quoted "password" +:+ ": " +:+ quoted "baz".

Definition oauth_creds : string := quoted "token" +:+ ": " +:+ quoted "sometoken".

(** The switch on [auth] of [startServer]: what it prints, or [None] for
    its panic. *)
Definition startServer_creds (host auth : string) : option (list proc_event) :=
  if String.eqb auth "none" then Some []
  else if String.eqb auth "basic" then Some [Print (printCreds host auth basic_creds)]
  else if String.eqb auth "oauth" then Some [Print (printCreds host auth oauth_creds)]
  else None.

(** [startServer].  [tsURL] is the URL the test server got, [parsed] what
    [url.Parse] makes of it (the host, or an error), [sched] what [loop]
    receives.  The deferred [ts.Close()] runs on every way out after
    [ts.StartTLS()]. *)
Definition startServer (args : list string) (tsURL : string)
    (parsed : string + string) (sched : list recv) : list proc_event * ended :=
  match startServer_handler args with
  | inl err => ([], Ret (Some err))
  | inr server =>
      match parsed with
      | inr err => ([StartTLS; Close], Ret (Some err))
      | inl host =>
          match startServer_creds host (auth server) with
          | None => ([StartTLS; Close], Crashed "Woe is me!")
          | Some creds =>
              let ready :=
                Print ("Ready, waiting for connections at " +:+ tsURL +:+ nl) in
              let (out, returned) := loop sched in
              let printed := map (fun msg => Print (msg +:+ nl)) out in
              if returned then
                (StartTLS :: creds ++ ready :: printed
                   ++ [Print ("Byebye" +:+ nl); Close],
                 Ret None)
              else (StartTLS :: creds ++ ready :: printed, Waiting)
          end
      end
  end.

(** [stopServer].  [post] is what [client.Post] returns for a host: the
    status line and the status code of the response, or an error.  Go
    divides integers towards zero. *)
Definition stopServer (args : list string) (post : string -> (string * Z) + string)
  : list proc_event * option string :=
  match args with
  | [] => ([], Some "expected a host")
  | host :: _ =>
      match post host with
      | inr err =>
          ([Post host], Some ("failed to send post to " +:+ quote host +:+ ": " +:+ err))
      | inl (Status, StatusCode) =>
          let printed := Print ("Response status: " +:+ Status +:+ nl) in
          if negb (Z.eqb (Z.quot StatusCode 100) 2) then
            ([Post host; printed; CloseBody], Some "got a nonsuccess status")
          else ([Post host; printed; CloseBody], None)
      end
  end.


Definition is_StartTLS (e : proc_event) : bool :=
  match e with StartTLS => true | _ => false end.
Definition is_Close (e : proc_event) : bool :=
  match e with Close => true | _ => false end.
Definition is_CloseBody (e : proc_event) : bool :=
  match e with CloseBody => true | _ => false end.
Definition is_Post (e : proc_event) : bool :=
  match e with Post _ => true | _ => false end.

(** How many events of a kind there are. *)
Definition count (p : proc_event -> bool) (l : list proc_event) : nat :=
  length (List.filter p l).

(** *** The revision on the library: [start] and [loop] *)

(** Modelled from the spec: [lib.Type] and its values [lib.None],
    [lib.Basic] and [lib.Oauth], declared in a file of the library that is
    not at hand; the specification has the auth mode as an enumeration of
    None, Basic and OAuth. *)
Inductive lib_Type := lib_None | lib_Basic | lib_Oauth.

(** The map [types] of [start]. *)
Definition start_types : gmap string lib_Type :=
  <["oauth" := lib_Oauth]> (<["basic" := lib_Basic]> (<["none" := lib_None]> ∅)).

(** [start] up to the call of [lib.StartServer]: an error, or the type the
    server is started with. *)
Definition start_type (args : list string) : string + lib_Type :=
  match args with
  | [] => inl ("expected a type - " +:+ typesStr)
  | arg0 :: _ =>
      match start_types !! arg0 with
      | None => inl ("wrong type " +:+ quote arg0 +:+ ", should, be " +:+ typesStr)
      | Some auth => inr auth
      end
  end.

(** The case of the [select] of [loop(server)] that fires; a reception from
    [server.Msg] says whether the channel was still open. *)
Inductive recv_server :=
| ServerStop
| ServerMsg (msg : string) (ok : bool).

(** [loop(server)]: what it prints and its call of [server.Close()], and
    whether it has returned. *)
Fixpoint loop_server (sched : list recv_server) : list proc_event * bool :=
  match sched with
  | [] => ([], false)
  | ServerStop :: _ => ([Close], true)
  | ServerMsg msg ok :: rest =>
      let (out, returned) := loop_server rest in
      ((if ok then [Print (msg +:+ nl)] else []) ++ out, returned)
  end.

(** A reception of the first [loop] as one of [loop(server)]: the channel
    of the first is never closed. *)
Definition on_server (e : recv) : recv_server :=
  match e with
  | RecvStop => ServerStop
  | RecvMsg msg => ServerMsg msg true
  end.

(** The name of a type. *)
Definition type_name (t : lib_Type) : string :=
  match t with
  | lib_None => "none"
  | lib_Basic => "basic"
  | lib_Oauth => "oauth"
  end.

(** ** Properties *)

(** *** The monad and the response *)

Lemma bind_ret_l {A B} (a : A) (k : A -> M B) : bind (ret a) k = k a.
Proof. unfold bind, ret. destruct (k a) as [t f]. reflexivity. Qed.

Lemma bind_returned {A B} (t : list event) (k : A -> M B) :
  bind (t, Returned) k = (t, Returned).
Proof. reflexivity. Qed.

Lemma rejected_with_intro (c : nat) (m : string) :
  rejected_with c ([WriteHeader c; SendMsg m], Returned).
Proof. split; reflexivity. Qed.

(** *** The method switch *)

Lemma ServeHTTP_method_GET (r : Request) :
  Method r = "GET" -> ServeHTTP_method r = ret tt.
Proof. intros Hm. unfold ServeHTTP_method. rewrite Hm. reflexivity. Qed.

Lemma ServeHTTP_POST (h : serverHandler) (r : Request) :
  Method r = "POST" ->
  ServeHTTP h r = ([WriteHeader StatusOK; SendStop], Returned).
Proof. intros Hm. unfold ServeHTTP, ServeHTTP_method. rewrite Hm. reflexivity. Qed.

Lemma ServeHTTP_other_method (h : serverHandler) (r : Request) :
  Method r <> "GET" -> Method r <> "POST" ->
  ServeHTTP h r = ([WriteHeader StatusMethodNotAllowed], Returned).
Proof.
  intros Hg Hp. unfold ServeHTTP, ServeHTTP_method.
  apply String.eqb_neq in Hg. apply String.eqb_neq in Hp.
  rewrite Hg, Hp. reflexivity.
Qed.

Lemma ServeHTTP_GET (h : serverHandler) (r : Request) :
  Method r = "GET" ->
  ServeHTTP h r = bind (ServeHTTP_auth h r) (fun _ => ServeHTTP_serve r).
Proof.
  intros Hm. unfold ServeHTTP.
  rewrite (ServeHTTP_method_GET r Hm), bind_ret_l. reflexivity.
Qed.

Lemma accepted_proceeds (h : serverHandler) (r : Request) :
  Method r = "GET" -> accepted h r -> ServeHTTP h r = ServeHTTP_serve r.
Proof.
  intros Hm Hacc. rewrite (ServeHTTP_GET h r Hm).
  unfold accepted in Hacc. rewrite Hacc, bind_ret_l. reflexivity.
Qed.

Lemma rejected_returns (h : serverHandler) (r : Request) (c : nat) (m : string) :
  Method r = "GET" ->
  ServeHTTP_auth h r = ([WriteHeader c; SendMsg m], Returned) ->
  ServeHTTP h r = ([WriteHeader c; SendMsg m], Returned).
Proof.
  intros Hm Hrej. rewrite (ServeHTTP_GET h r Hm), Hrej. reflexivity.
Qed.

(** *** [getAuthPayload], case by case *)

Lemma Get_absent (hd : Header) (key : string) :
  hd !! key = None -> Get hd key = "".
Proof. intros Hk. unfold Get. rewrite Hk. reflexivity. Qed.

Lemma Split_two_nonempty (a x y : string) :
  Split a " " = [x; y] -> a <> "".
Proof. intros Hs Ha. subst a. discriminate Hs. Qed.

Lemma getAuthPayload_no_auth (r : Request) (authType : string) :
  Get (Hdr r) "Authorization" = "" ->
  getAuthPayload r authType
  = inr {| code := StatusUnauthorized; message := "No auth" |}.
Proof. intros Ha. unfold getAuthPayload. rewrite Ha. reflexivity. Qed.

Lemma getAuthPayload_malformed (r : Request) (authType : string) :
  Get (Hdr r) "Authorization" <> "" ->
  length (Split (Get (Hdr r) "Authorization") " ") <> 2 ->
  getAuthPayload r authType
  = inr {| code := StatusBadRequest; message := "Malformed auth" |}.
Proof.
  intros Ha Hlen. unfold getAuthPayload.
  apply String.eqb_neq in Ha. rewrite Ha.
  apply Nat.eqb_neq in Hlen. rewrite Hlen. reflexivity.
Qed.

Lemma getAuthPayload_wrong_auth (r : Request) (authType scheme payload : string) :
  Split (Get (Hdr r) "Authorization") " " = [scheme; payload] ->
  scheme <> authType ->
  getAuthPayload r authType
  = inr {| code := StatusUnauthorized; message := "Wrong auth" |}.
Proof.
  intros Hs Hne. unfold getAuthPayload.
  pose proof (Split_two_nonempty _ _ _ Hs) as Ha.
  apply String.eqb_neq in Ha. rewrite Ha, Hs. simpl.
  apply String.eqb_neq in Hne. rewrite Hne. reflexivity.
Qed.

Lemma getAuthPayload_payload (r : Request) (authType payload : string) :
  Split (Get (Hdr r) "Authorization") " " = [authType; payload] ->
  getAuthPayload r authType = inl payload.
Proof.
  intros Hs. unfold getAuthPayload.
  pose proof (Split_two_nonempty _ _ _ Hs) as Ha.
  apply String.eqb_neq in Ha. rewrite Ha, Hs. simpl.
  rewrite String.eqb_refl. reflexivity.
Qed.

(** A request the auth switch sends away is not an accepted one. *)
Lemma rejected_not_accepted (h : serverHandler) (r : Request) (c : nat) (m : string) :
  ServeHTTP_auth h r = ([WriteHeader c; SendMsg m], Returned) -> ~ accepted h r.
Proof. intros Hrej Hacc. unfold accepted in Hacc. rewrite Hrej in Hacc. discriminate Hacc. Qed.

(** The auth switch in mode basic, case by case. *)
Lemma basic_auth_error (h : serverHandler) (r : Request) (e : httpError) :
  auth h = "basic" -> getAuthPayload r "Basic" = inr e ->
  ServeHTTP_auth h r
  = ([WriteHeader (code e); SendMsg (no_authorization (message e))], Returned).
Proof. intros Hb Hp. unfold ServeHTTP_auth. rewrite Hb, Hp. reflexivity. Qed.

Lemma basic_auth_payload (h : serverHandler) (r : Request) (payload : string) :
  auth h = "basic" -> getAuthPayload r "Basic" = inl payload ->
  ServeHTTP_auth h r
  = match decodeBase64 payload with
    | None => ([WriteHeader StatusBadRequest; SendMsg badly_formed], Returned)
    | Some creds =>
        if negb (Nat.eqb (length (Split creds ":")) 2) then
          ([WriteHeader StatusBadRequest; SendMsg (badly_formed +:+ " (2)")], Returned)
        else if negb (String.eqb (nth 0 (Split creds ":") "") "bar")
                || negb (String.eqb (nth 1 (Split creds ":") "") "baz") then
          ([WriteHeader StatusUnauthorized; SendMsg ("Bad credentials: " +:+ quote creds)],
           Returned)
        else ret tt
    end.
Proof.
  intros Hb Hp. unfold ServeHTTP_auth. rewrite Hb, Hp. simpl.
  destruct (decodeBase64 payload) as [creds|]; [|reflexivity].
  destruct (negb (Nat.eqb (length (Split creds ":")) 2)); [reflexivity|].
  destruct (negb (String.eqb (nth 0 (Split creds ":") "") "bar")
            || negb (String.eqb (nth 1 (Split creds ":") "") "baz")); reflexivity.
Qed.

Lemma oauth_auth_error (h : serverHandler) (r : Request) (e : httpError) :
  auth h = "oauth" -> getAuthPayload r "Bearer" = inr e ->
  ServeHTTP_auth h r
  = ([WriteHeader (code e); SendMsg (no_authorization (message e))], Returned).
Proof. intros Hb Hp. unfold ServeHTTP_auth. rewrite Hb, Hp. reflexivity. Qed.

Lemma oauth_auth_payload (h : serverHandler) (r : Request) (payload : string) :
  auth h = "oauth" -> getAuthPayload r "Bearer" = inl payload ->
  ServeHTTP_auth h r
  = if negb (String.eqb payload "sometoken") then
      ([WriteHeader StatusUnauthorized; SendMsg ("Bad token: " +:+ quote payload)], Returned)
    else ret tt.
Proof.
  intros Hb Hp. unfold ServeHTTP_auth. rewrite Hb, Hp. simpl.
  destruct (negb (String.eqb payload "sometoken")); reflexivity.
Qed.

Lemma credentials_differ (user password : string) :
  (user, password) <> ("bar", "baz") ->
  negb (String.eqb user "bar") || negb (String.eqb password "baz") = true.
Proof.
  intros Hne.
  destruct (String.eqb_spec user "bar") as [->|_]; [|reflexivity].
  destruct (String.eqb_spec password "baz") as [->|_]; [|reflexivity].
  exfalso. apply Hne. reflexivity.
Qed.

Ltac reject Hm Hrej :=
  rewrite (rejected_returns _ _ _ _ Hm Hrej); apply rejected_with_intro.

(** *** Credential validation *)

(** C1. A GET in mode basic is answered by the first of these that applies.
    No [Authorization] header (the handler sees the empty string that
    [Header.Get] gives it): 401.  A header that is not exactly two pieces
    separated by a space: 400.  A first piece other than [Basic]: 401.  A
    payload that is not base64: 400.  A decoded payload that is not
    exactly two fields separated by a colon: 400.  A pair of fields other
    than [bar] and [baz]: 401.  Otherwise the request is accepted and the
    handler goes on to serve the path. *)
Theorem C1_basic_validation (h : serverHandler) (r : Request) :
  auth h = "basic" -> Method r = "GET" ->
  let a := Get (Hdr r) "Authorization" in
  (Hdr r !! "Authorization" = None -> rejected_with 401 (ServeHTTP h r)) /\
  (a = "" -> rejected_with 401 (ServeHTTP h r)) /\
  (a <> "" -> length (Split a " ") <> 2 -> rejected_with 400 (ServeHTTP h r)) /\
  (forall scheme payload,
      Split a " " = [scheme; payload] -> scheme <> "Basic" ->
      rejected_with 401 (ServeHTTP h r)) /\
  (forall payload,
      Split a " " = ["Basic"; payload] -> decodeBase64 payload = None ->
      rejected_with 400 (ServeHTTP h r)) /\
  (forall payload creds,
      Split a " " = ["Basic"; payload] -> decodeBase64 payload = Some creds ->
      length (Split creds ":") <> 2 ->
      rejected_with 400 (ServeHTTP h r)) /\
  (forall payload creds user password,
      Split a " " = ["Basic"; payload] -> decodeBase64 payload = Some creds ->
      Split creds ":" = [user; password] -> (user, password) <> ("bar", "baz") ->
      rejected_with 401 (ServeHTTP h r)) /\
  (forall payload creds,
      Split a " " = ["Basic"; payload] -> decodeBase64 payload = Some creds ->
      Split creds ":" = ["bar"; "baz"] ->
      accepted h r /\ ServeHTTP h r = ServeHTTP_serve r).
Proof.
  intros Hb Hm a.
  assert (Hnone : a = "" -> rejected_with 401 (ServeHTTP h r)).
  { intros Ha.
    pose proof (basic_auth_error h r _ Hb (getAuthPayload_no_auth r "Basic" Ha)) as Hrej.
    reject Hm Hrej. }
  split. { intros Habs. apply Hnone, Get_absent, Habs. }
  split. { exact Hnone. }
  split.
  { intros Ha Hlen.
    pose proof (basic_auth_error h r _ Hb (getAuthPayload_malformed r "Basic" Ha Hlen)) as Hrej.
    reject Hm Hrej. }
  split.
  { intros scheme payload Hs Hne.
    pose proof (basic_auth_error h r _ Hb
                  (getAuthPayload_wrong_auth r "Basic" _ _ Hs Hne)) as Hrej.
    reject Hm Hrej. }
  split.
  { intros payload Hs Hdec.
    pose proof (basic_auth_payload h r _ Hb (getAuthPayload_payload r "Basic" _ Hs)) as Hrej.
    rewrite Hdec in Hrej. reject Hm Hrej. }
  split.
  { intros payload creds Hs Hdec Hlen.
    pose proof (basic_auth_payload h r _ Hb (getAuthPayload_payload r "Basic" _ Hs)) as Hrej.
    rewrite Hdec in Hrej. apply Nat.eqb_neq in Hlen. rewrite Hlen in Hrej.
    reject Hm Hrej. }
  split.
  { intros payload creds user password Hs Hdec Hf Hne.
    pose proof (basic_auth_payload h r _ Hb (getAuthPayload_payload r "Basic" _ Hs)) as Hrej.
    rewrite Hdec, Hf in Hrej. cbn [length nth Nat.eqb negb] in Hrej.
    rewrite (credentials_differ _ _ Hne) in Hrej. reject Hm Hrej. }
  intros payload creds Hs Hdec Hf.
  assert (Hacc : accepted h r).
  { unfold accepted.
    rewrite (basic_auth_payload h r _ Hb (getAuthPayload_payload r "Basic" _ Hs)).
    rewrite Hdec, Hf. reflexivity. }
  split; [exact Hacc | exact (accepted_proceeds h r Hm Hacc)].
Qed.

(** C2. A GET in mode oauth is answered by the first of these that applies.
    No [Authorization] header (the empty string from [Header.Get]): 401.
    A header that is not exactly two pieces separated by a space: 400.  A
    first piece other than [Bearer]: 401.  A second piece other than
    [sometoken]: 401.  Otherwise the request is accepted and the handler
    goes on to serve the path. *)
Theorem C2_oauth_validation (h : serverHandler) (r : Request) :
  auth h = "oauth" -> Method r = "GET" ->
  let a := Get (Hdr r) "Authorization" in
  (Hdr r !! "Authorization" = None -> rejected_with 401 (ServeHTTP h r)) /\
  (a = "" -> rejected_with 401 (ServeHTTP h r)) /\
  (a <> "" -> length (Split a " ") <> 2 -> rejected_with 400 (ServeHTTP h r)) /\
  (forall scheme token,
      Split a " " = [scheme; token] -> scheme <> "Bearer" ->
      rejected_with 401 (ServeHTTP h r)) /\
  (forall token,
      Split a " " = ["Bearer"; token] -> token <> "sometoken" ->
      rejected_with 401 (ServeHTTP h r)) /\
  (Split a " " = ["Bearer"; "sometoken"] ->
   accepted h r /\ ServeHTTP h r = ServeHTTP_serve r).
Proof.
  intros Ho Hm a.
  assert (Hnone : a = "" -> rejected_with 401 (ServeHTTP h r)).
  { intros Ha.
    pose proof (oauth_auth_error h r _ Ho (getAuthPayload_no_auth r "Bearer" Ha)) as Hrej.
    reject Hm Hrej. }
  split. { intros Habs. apply Hnone, Get_absent, Habs. }
  split. { exact Hnone. }
  split.
  { intros Ha Hlen.
    pose proof (oauth_auth_error h r _ Ho (getAuthPayload_malformed r "Bearer" Ha Hlen)) as Hrej.
    reject Hm Hrej. }
  split.
  { intros scheme token Hs Hne.
    pose proof (oauth_auth_error h r _ Ho
                  (getAuthPayload_wrong_auth r "Bearer" _ _ Hs Hne)) as Hrej.
    reject Hm Hrej. }
  split.
  { intros token Hs Hne.
    pose proof (oauth_auth_payload h r _ Ho (getAuthPayload_payload r "Bearer" _ Hs)) as Hrej.
    apply String.eqb_neq in Hne. rewrite Hne in Hrej. reject Hm Hrej. }
  intros Hs.
  assert (Hacc : accepted h r).
  { unfold accepted.
    rewrite (oauth_auth_payload h r _ Ho (getAuthPayload_payload r "Bearer" _ Hs)).
    reflexivity. }
  split; [exact Hacc | exact (accepted_proceeds h r Hm Hacc)].
Qed.

(** C10. The scheme is compared byte for byte.  A GET in mode basic or
    oauth whose [Authorization] header is exactly two pieces separated by
    a space, the first of them different from the scheme of the mode
    ([Basic], [Bearer]) in any way, is answered 401 and is not accepted;
    so it is for the schemes written in lower case. *)
Theorem C10_scheme_is_case_sensitive (h : serverHandler) (r : Request)
    (expected scheme payload : string) :
  Method r = "GET" ->
  (auth h = "basic" /\ expected = "Basic") \/ (auth h = "oauth" /\ expected = "Bearer") ->
  Split (Get (Hdr r) "Authorization") " " = [scheme; payload] ->
  scheme <> expected ->
  rejected_with 401 (ServeHTTP h r) /\ ~ accepted h r.
Proof.
  intros Hm Hmode Hs Hne.
  assert (Hrej : ServeHTTP_auth h r
                 = ([WriteHeader StatusUnauthorized;
                     SendMsg (no_authorization "Wrong auth")], Returned)).
  { destruct Hmode as [[Hb ->]|[Ho ->]].
    - exact (basic_auth_error h r _ Hb (getAuthPayload_wrong_auth r "Basic" _ _ Hs Hne)).
    - exact (oauth_auth_error h r _ Ho (getAuthPayload_wrong_auth r "Bearer" _ _ Hs Hne)). }
  split. { reject Hm Hrej. }
  exact (rejected_not_accepted h r _ _ Hrej).
Qed.

(** *** Routing *)

(** C4. A POST is answered 200 and sends one shutdown signal, and that is
    all the handler does: whatever the path, the headers and the mode of
    the handler, no credential is looked at, no message is sent and the
    builder is not called. *)
Theorem C4_post_stops (h : serverHandler) (r : Request) :
  Method r = "POST" ->
  ServeHTTP h r = ([WriteHeader StatusOK; SendStop], Returned) /\
  status (trace (ServeHTTP h r)) = 200 /\
  stops (trace (ServeHTTP h r)) = 1 /\
  msgs (trace (ServeHTTP h r)) = [] /\
  builds (trace (ServeHTTP h r)) = 0.
Proof.
  intros Hm. rewrite (ServeHTTP_POST h r Hm). repeat split; reflexivity.
Qed.

(** C8. A request whose method is neither GET nor POST is answered 405 and
    that is all the handler does: no credential is looked at, no message
    and no shutdown signal is sent, the builder is not called. *)
Theorem C8_other_method_not_allowed (h : serverHandler) (r : Request) :
  Method r <> "GET" -> Method r <> "POST" ->
  ServeHTTP h r = ([WriteHeader StatusMethodNotAllowed], Returned) /\
  status (trace (ServeHTTP h r)) = 405 /\
  msgs (trace (ServeHTTP h r)) = [] /\
  stops (trace (ServeHTTP h r)) = 0 /\
  builds (trace (ServeHTTP h r)) = 0.
Proof.
  intros Hg Hp. rewrite (ServeHTTP_other_method h r Hg Hp).
  repeat split; reflexivity.
Qed.

(** The two ways the path switch goes. *)
Lemma serve_prog_aci (r : Request) :
  Base (Path (Url r)) = "prog.aci" ->
  ServeHTTP_serve r
  = ([SendMsg ("Trying to serve " +:+ quote (URL_String (Url r)));
      SendMsg "  serving"; CallPrepareACI;
      match prepareACI with
      | inl data => Write data
      | inr _ => WriteHeader StatusInternalServerError
      end;
      SendMsg match prepareACI with
              | inl _ => "    done."
              | inr err => "    failed (" +:+ err +:+ ")"
              end],
     Next tt).
Proof.
  intros Hbase. unfold ServeHTTP_serve. rewrite Hbase.
  destruct prepareACI; reflexivity.
Qed.

Lemma serve_not_found (r : Request) :
  Base (Path (Url r)) <> "prog.aci" ->
  ServeHTTP_serve r
  = ([SendMsg ("Trying to serve " +:+ quote (URL_String (Url r)));
      SendMsg "  not found."; WriteHeader StatusNotFound],
     Next tt).
Proof.
  intros Hbase. unfold ServeHTTP_serve.
  apply String.eqb_neq in Hbase. rewrite Hbase. reflexivity.
Qed.

(** C5. An accepted GET whose path has the base [prog.aci] calls the
    builder, once.  When the builder returns bytes the answer is 200 with
    exactly these bytes as body.  When it returns an error the answer is
    500 with an empty body, and the text of the error is in the [failed]
    message and nowhere in the response. *)
Theorem C5_prog_aci_served (h : serverHandler) (r : Request) :
  Method r = "GET" -> accepted h r -> Base (Path (Url r)) = "prog.aci" ->
  let t := trace (ServeHTTP h r) in
  builds t = 1 /\
  (forall data, prepareACI = inl data ->
     status t = 200 /\ body t = data /\
     msgs t = ["Trying to serve " +:+ quote (URL_String (Url r));
               "  serving"; "    done."]) /\
  (forall err, prepareACI = inr err ->
     status t = 500 /\ body t = "" /\
     msgs t = ["Trying to serve " +:+ quote (URL_String (Url r));
               "  serving"; "    failed (" +:+ err +:+ ")"]).
Proof.
  intros Hm Hacc Hbase t. subst t.
  rewrite (accepted_proceeds h r Hm Hacc), (serve_prog_aci r Hbase).
  destruct prepareACI as [d|e].
  - split. { reflexivity. }
    split.
    + intros data Hd. injection Hd as <-. repeat split; reflexivity.
    + intros err Hd. discriminate Hd.
  - split. { reflexivity. }
    split.
    + intros data Hd. discriminate Hd.
    + intros err Hd. injection Hd as <-. repeat split; reflexivity.
Qed.

(** C7. In mode none every GET is accepted, whatever its headers.  With the
    base [prog.aci] the handler goes on to serve the image: it announces
    [serving] and calls the builder.  With any other path the answer is
    404 and the builder is not called. *)
Theorem C7_none_accepts_all (h : serverHandler) (r : Request) :
  auth h = "none" -> Method r = "GET" ->
  let t := trace (ServeHTTP h r) in
  accepted h r /\
  ServeHTTP h r = ServeHTTP_serve r /\
  (Base (Path (Url r)) = "prog.aci" ->
     builds t = 1 /\
     exists result, msgs t = ["Trying to serve " +:+ quote (URL_String (Url r));
                              "  serving"; result]) /\
  (Base (Path (Url r)) <> "prog.aci" ->
     status t = 404 /\ builds t = 0 /\ body t = "").
Proof.
  intros Hn Hm t. subst t.
  assert (Hacc : accepted h r).
  { unfold accepted, ServeHTTP_auth. rewrite Hn. reflexivity. }
  rewrite (accepted_proceeds h r Hm Hacc).
  split. { exact Hacc. }
  split. { reflexivity. }
  split.
  - intros Hbase. rewrite (serve_prog_aci r Hbase).
    destruct prepareACI as [d|e]; (split; [reflexivity | eexists; reflexivity]).
  - intros Hbase. rewrite (serve_not_found r Hbase). repeat split; reflexivity.
Qed.

(** *** Diagnostics *)

Lemma Split_typesStr : Split typesStr ", " = ["none"; "basic"; "oauth"].
Proof. reflexivity. Qed.

Lemma known_type_cases (a : string) :
  known_type a <-> a = "none" \/ a = "basic" \/ a = "oauth".
Proof.
  unfold known_type. rewrite Split_typesStr. cbn [In]. split.
  - intros [H|[H|[H|[]]]]; auto.
  - intros [H|[H|H]]; auto.
Qed.

(** In a known mode the auth switch either falls through in silence or
    writes a status, sends one message and returns. *)
Lemma auth_switch_cases (h : serverHandler) (r : Request) :
  known_type (auth h) ->
  accepted h r \/
  exists c m, ServeHTTP_auth h r = ([WriteHeader c; SendMsg m], Returned).
Proof.
  intros Hk. apply known_type_cases in Hk. destruct Hk as [Hn|[Hb|Ho]].
  - left. unfold accepted, ServeHTTP_auth. rewrite Hn. reflexivity.
  - destruct (getAuthPayload r "Basic") as [payload|e] eqn:Hp.
    + unfold accepted. rewrite (basic_auth_payload h r payload Hb Hp).
      destruct (decodeBase64 payload) as [creds|]; [|right; eauto].
      destruct (negb (Nat.eqb (length (Split creds ":")) 2)); [right; eauto|].
      destruct (negb (String.eqb (nth 0 (Split creds ":") "") "bar")
                || negb (String.eqb (nth 1 (Split creds ":") "") "baz"));
        [right; eauto | left; reflexivity].
    + right. rewrite (basic_auth_error h r e Hb Hp). eauto.
  - destruct (getAuthPayload r "Bearer") as [payload|e] eqn:Hp.
    + unfold accepted. rewrite (oauth_auth_payload h r payload Ho Hp).
      destruct (negb (String.eqb payload "sometoken"));
        [right; eauto | left; reflexivity].
    + right. rewrite (oauth_auth_error h r e Ho Hp). eauto.
Qed.

(** C3, as the handler has it.  A GET that the auth switch sends away
    sends exactly one message.  An accepted GET first sends
    [Trying to serve] with the quoted URL; then [not found.] when the base
    of the path is not [prog.aci], two messages in all; or [serving]
    followed by [done.] or [failed (...)], in that order, three messages in
    all. *)
Theorem C3_diagnostics_per_get (h : serverHandler) (r : Request) :
  Method r = "GET" -> known_type (auth h) ->
  let t := trace (ServeHTTP h r) in
  let trying := "Trying to serve " +:+ quote (URL_String (Url r)) in
  (~ accepted h r -> exists m, msgs t = [m]) /\
  (accepted h r -> Base (Path (Url r)) <> "prog.aci" ->
     msgs t = [trying; "  not found."]) /\
  (accepted h r -> Base (Path (Url r)) = "prog.aci" ->
     exists result,
       msgs t = [trying; "  serving"; result] /\
       (result = "    done." \/ exists err, result = "    failed (" +:+ err +:+ ")")).
Proof.
  intros Hm Hk t trying. subst t trying.
  split.
  { intros Hna. destruct (auth_switch_cases h r Hk) as [Hacc|(c & m & Hrej)].
    - contradiction.
    - rewrite (rejected_returns h r c m Hm Hrej). exists m. reflexivity. }
  split.
  { intros Hacc Hbase.
    rewrite (accepted_proceeds h r Hm Hacc), (serve_not_found r Hbase). reflexivity. }
  intros Hacc Hbase.
  rewrite (accepted_proceeds h r Hm Hacc), (serve_prog_aci r Hbase).
  destruct prepareACI as [d|e]; eexists; (split; [reflexivity|]).
  - left. reflexivity.
  - right. exists e. reflexivity.
Qed.

(** *** No panic *)

Lemma find_type_known (arg : string) :
  (known_type arg /\ find_type (Split typesStr ", ") arg = arg) \/
  (~ known_type arg /\ find_type (Split typesStr ", ") arg = "").
Proof.
  rewrite known_type_cases, Split_typesStr. cbn [find_type].
  destruct (String.eqb_spec "none" arg) as [<-|Hn]; [left; auto|].
  destruct (String.eqb_spec "basic" arg) as [<-|Hb]; [left; auto|].
  destruct (String.eqb_spec "oauth" arg) as [<-|Ho]; [left; auto|].
  right. split; [|reflexivity]. intros [H|[H|H]]; congruence.
Qed.

Lemma known_type_nonempty (a : string) : known_type a -> String.eqb a "" = false.
Proof.
  intros Hk. apply known_type_cases in Hk.
  destruct Hk as [-> | [-> | ->]]; reflexivity.
Qed.

Lemma serve_never_panics (r : Request) : outcome (ServeHTTP_serve r) = Next tt.
Proof.
  unfold ServeHTTP_serve.
  destruct (String.eqb (Base (Path (Url r))) "prog.aci"); [|reflexivity].
  destruct prepareACI; reflexivity.
Qed.

(** C9. [startServer] builds a handler only for the types [none], [basic]
    and [oauth], and builds it for each of them; any other argument, and
    no argument, is an error and no handler is built.  A handler of one of
    the three types never reaches the panic of the auth switch, whatever
    the request. *)
Theorem C9_panic_unreachable :
  (forall args h, startServer_handler args = inr h -> known_type (auth h)) /\
  (forall arg0 rest, known_type arg0 ->
     startServer_handler (arg0 :: rest) = inr {| auth := arg0 |}) /\
  (forall arg0 rest, ~ known_type arg0 ->
     exists err, startServer_handler (arg0 :: rest) = inl err) /\
  (exists err, startServer_handler [] = inl err) /\
  (forall h r v, known_type (auth h) -> outcome (ServeHTTP h r) <> Panicked v) /\
  (forall args h r v,
     startServer_handler args = inr h -> outcome (ServeHTTP h r) <> Panicked v).
Proof.
  assert (Hbuilt : forall args h,
             startServer_handler args = inr h -> known_type (auth h)).
  { intros [|arg0 rest] h; [discriminate|]. unfold startServer_handler.
    destruct (find_type_known arg0) as [[Hk ->]|[_ ->]].
    - rewrite (known_type_nonempty arg0 Hk). intros [= <-]. exact Hk.
    - discriminate. }
  assert (Hsafe : forall h r v,
             known_type (auth h) -> outcome (ServeHTTP h r) <> Panicked v).
  { intros h r v Hk.
    destruct (String.eqb_spec (Method r) "POST") as [Hp|Hp].
    { rewrite (ServeHTTP_POST h r Hp). discriminate. }
    destruct (String.eqb_spec (Method r) "GET") as [Hg|Hg].
    2:{ rewrite (ServeHTTP_other_method h r Hg Hp). discriminate. }
    destruct (auth_switch_cases h r Hk) as [Hacc|(c & m & Hrej)].
    - rewrite (accepted_proceeds h r Hg Hacc), serve_never_panics. discriminate.
    - rewrite (rejected_returns h r c m Hg Hrej). discriminate. }
  split. { exact Hbuilt. }
  split.
  { intros arg0 rest Hk. unfold startServer_handler.
    destruct (find_type_known arg0) as [[_ ->]|[Hnk _]]; [|contradiction].
    rewrite (known_type_nonempty arg0 Hk). reflexivity. }
  split.
  { intros arg0 rest Hnk. unfold startServer_handler.
    destruct (find_type_known arg0) as [[Hk _]|[_ ->]]; [contradiction|].
    eexists. reflexivity. }
  split. { eexists. reflexivity. }
  split. { exact Hsafe. }
  intros args h r v Hstart. exact (Hsafe h r v (Hbuilt args h Hstart)).
Qed.

(** Outside the three types the switch does panic on a GET: the guard of
    [startServer] is what keeps the handler away from it. *)
Lemma unknown_type_panics (h : serverHandler) (r : Request) :
  Method r = "GET" -> ~ known_type (auth h) ->
  ServeHTTP h r = ([], Panicked "Woe is me!").
Proof.
  intros Hm Hnk. rewrite (ServeHTTP_GET h r Hm).
  rewrite known_type_cases in Hnk. unfold ServeHTTP_auth.
  destruct (String.eqb_spec (auth h) "none") as [H|_]; [tauto|].
  destruct (String.eqb_spec (auth h) "basic") as [H|_]; [tauto|].
  destruct (String.eqb_spec (auth h) "oauth") as [H|_]; [tauto|].
  reflexivity.
Qed.

(** *** The control loop *)

Lemma loop_msg (msg : string) (rest : list recv) :
  loop (RecvMsg msg :: rest) = (msg :: fst (loop rest), snd (loop rest)).
Proof. cbn [loop]. destruct (loop rest). reflexivity. Qed.

Lemma startServer_loop_msg (msg : string) (rest : list recv) :
  startServer_loop (RecvMsg msg :: rest)
  = (msg :: fst (startServer_loop rest), snd (startServer_loop rest)).
Proof.
  unfold startServer_loop. rewrite loop_msg.
  destruct (loop rest) as [out [|]]; reflexivity.
Qed.

Lemma startServer_loop_returned (sched : list recv) :
  snd (startServer_loop sched) = snd (loop sched).
Proof. unfold startServer_loop. destruct (loop sched) as [out [|]]; reflexivity. Qed.

Lemma loop_returns_iff (sched : list recv) :
  snd (loop sched) = true <-> In RecvStop sched.
Proof.
  induction sched as [|[|msg] rest IH].
  - cbn. split; [discriminate | tauto].
  - cbn. split; auto.
  - rewrite loop_msg. cbn [snd In]. rewrite IH.
    split; [auto | intros [H|H]; [discriminate H | exact H]].
Qed.

Lemma loop_refines (sched : list recv) :
  ControlLoop_run Running (consumed sched)
    (fst (startServer_loop sched)) (state_of (snd (startServer_loop sched))).
Proof.
  induction sched as [|[|msg] rest IH].
  - apply run_here.
  - apply (run_step Running RecvStop ["Byebye"] Stopped [] [] Stopped).
    + apply shutdown_signal.
    + apply run_here.
  - rewrite startServer_loop_msg. cbn [consumed fst snd].
    apply (run_step Running (RecvMsg msg) [msg] Running).
    + apply diagnostic.
    + exact IH.
Qed.

Lemma run_from_stopped (l : list recv) (out : list string) (s : ControlState) :
  ControlLoop_run Stopped l out s -> l = [] /\ out = [] /\ s = Stopped.
Proof.
  intros Hrun. inversion Hrun as [|? ? ? ? ? ? ? Htr]; subst.
  - auto.
  - inversion Htr.
Qed.

Lemma run_deterministic (sched : list recv) (out : list string) (s : ControlState) :
  ControlLoop_run Running (consumed sched) out s ->
  out = fst (startServer_loop sched) /\ s = state_of (snd (startServer_loop sched)).
Proof.
  revert out s. induction sched as [|[|msg] rest IH]; intros out s Hrun.
  - inversion Hrun; subst. split; reflexivity.
  - cbn [consumed] in Hrun.
    inversion Hrun as [|? ? ? ? ? ? ? Htr Hrest]; subst.
    inversion Htr; subst.
    apply run_from_stopped in Hrest. destruct Hrest as (_ & -> & ->).
    split; reflexivity.
  - cbn [consumed] in Hrun. rewrite startServer_loop_msg. cbn [fst snd].
    inversion Hrun as [|? ? ? ? ? ? ? Htr Hrest]; subst.
    inversion Htr; subst.
    destruct (IH _ _ Hrest) as [-> ->]. split; reflexivity.
Qed.

(** C6. The control loop is the two-state machine of the specification.
    Started in [Running], what [loop] and the farewell after it print, and
    the state they end in, is a run of the machine over the receptions
    consumed, and the only one.  A diagnostic message is printed and the
    loop goes on; a shutdown signal makes the loop return, and the
    farewell line follows.  The machine has no transition out of
    [Stopped], and the loop returns only when a shutdown signal was
    received. *)
Theorem C6_control_loop :
  (forall sched,
     ControlLoop_run Running (consumed sched)
       (fst (startServer_loop sched)) (state_of (snd (startServer_loop sched)))) /\
  (forall sched out s,
     ControlLoop_run Running (consumed sched) out s ->
     out = fst (startServer_loop sched) /\ s = state_of (snd (startServer_loop sched))) /\
  (forall msg rest,
     loop (RecvMsg msg :: rest) = (msg :: fst (loop rest), snd (loop rest))) /\
  (forall rest,
     loop (RecvStop :: rest) = ([], true) /\
     startServer_loop (RecvStop :: rest) = (["Byebye"], true)) /\
  (forall s e out s', ControlLoop_transition s e out s' -> s = Running) /\
  (forall sched, snd (startServer_loop sched) = true <-> In RecvStop sched) /\
  (forall sched, ~ In RecvStop sched ->
     startServer_loop sched = (fst (loop sched), false)).
Proof.
  split. { exact loop_refines. }
  split. { exact run_deterministic. }
  split. { exact loop_msg. }
  split. { intros rest. split; reflexivity. }
  split. { intros s e out s' Htr. destruct Htr; reflexivity. }
  split. { intros sched. rewrite startServer_loop_returned. apply loop_returns_iff. }
  intros sched Hns.
  assert (Hret : snd (loop sched) = false).
  { destruct (snd (loop sched)) eqn:E; [|reflexivity].
    apply loop_returns_iff in E. contradiction. }
  unfold startServer_loop. destruct (loop sched) as [out ret].
  cbn [snd] in Hret. subst ret. reflexivity.
Qed.

(** *** Splitting on one byte *)

Lemma prefix_byte (c c' : ascii) (s : string) :
  String.prefix (String c "") (String c' s) = Ascii.eqb c c'.
Proof.
  cbn [String.prefix]. destruct (ascii_dec c c') as [->|Hne].
  - rewrite Ascii.eqb_refl. destruct s; reflexivity.
  - symmetry. apply Ascii.eqb_neq. exact Hne.
Qed.

Lemma append_nil_l (t : string) : "" +:+ t = t.
Proof. reflexivity. Qed.

Lemma append_cons (a : ascii) (s t : string) : String a s +:+ t = String a (s +:+ t).
Proof. reflexivity. Qed.

Lemma append_assoc_byte (cur : string) (c : ascii) (s : string) :
  (cur +:+ String c "") +:+ s = cur +:+ String c s.
Proof.
  induction cur as [|a cur IH]; [reflexivity|].
  rewrite !append_cons, IH. reflexivity.
Qed.

Lemma append_empty_r (s : string) : s +:+ "" = s.
Proof. induction s as [|a s IH]; [reflexivity | rewrite append_cons, IH; reflexivity]. Qed.

Lemma append_assoc (a b c : string) : (a +:+ b) +:+ c = a +:+ (b +:+ c).
Proof. induction a as [|x a IH]; [reflexivity | rewrite !append_cons, IH; reflexivity]. Qed.

(** A string without the separator is one piece. *)
Lemma Split_from_without (c : ascii) (s cur : string) :
  contains_byte c s = false ->
  Split_from (String c "") 0 cur s = [cur +:+ s].
Proof.
  revert cur. induction s as [|c' s IH]; intros cur Hno.
  - cbn [Split_from]. rewrite append_empty_r. reflexivity.
  - cbn [contains_byte] in Hno. apply orb_false_iff in Hno as [Hc Hs].
    cbn [Split_from]. rewrite prefix_byte, Hc, (IH _ Hs), append_assoc_byte.
    reflexivity.
Qed.

(** The first piece ends at the first separator. *)
Lemma Split_from_at (c : ascii) (x rest cur : string) :
  contains_byte c x = false ->
  Split_from (String c "") 0 cur (x +:+ String c rest)
  = (cur +:+ x) :: Split_from (String c "") 0 "" rest.
Proof.
  revert cur. induction x as [|c' x IH]; intros cur Hno.
  - rewrite append_nil_l. cbn [Split_from].
    rewrite prefix_byte, Ascii.eqb_refl, append_empty_r. reflexivity.
  - cbn [contains_byte] in Hno. apply orb_false_iff in Hno as [Hc Hx].
    rewrite append_cons. cbn [Split_from].
    rewrite prefix_byte, Hc, (IH _ Hx), append_assoc_byte. reflexivity.
Qed.

Lemma first_separator (c : ascii) (s : string) :
  contains_byte c s = false \/
  exists x rest, s = x +:+ String c rest /\ contains_byte c x = false.
Proof.
  induction s as [|c' s IH].
  - left. reflexivity.
  - destruct (Ascii.eqb_spec c c') as [<-|Hne].
    + right. exists "", s. split; reflexivity.
    + apply Ascii.eqb_neq in Hne. destruct IH as [Hno|(x & rest & -> & Hx)].
      * left. cbn [contains_byte]. rewrite Hne, Hno. reflexivity.
      * right. exists (String c' x), rest. split; [reflexivity|].
        cbn [contains_byte]. rewrite Hne, Hx. reflexivity.
Qed.

Lemma Split_from_nonempty (sep : string) (skip : nat) (cur s : string) :
  Split_from sep skip cur s <> [].
Proof.
  revert skip cur. induction s as [|c s IH]; intros skip cur.
  - discriminate.
  - cbn [Split_from]. destruct skip; [|apply IH].
    destruct (String.prefix sep (String c s)); [discriminate | apply IH].
Qed.

(** Exactly two pieces: one separator, between them. *)
Lemma Split_two_iff (c : ascii) (s x y : string) :
  Split s (String c "") = [x; y] <->
  s = x +:+ String c y /\ contains_byte c x = false /\ contains_byte c y = false.
Proof.
  unfold Split. split.
  - intros Hs. destruct (first_separator c s) as [Hno|(x' & rest & -> & Hx')].
    { rewrite (Split_from_without c s "" Hno) in Hs. discriminate Hs. }
    rewrite (Split_from_at c x' rest "" Hx'), append_nil_l in Hs.
    injection Hs as -> Hrest.
    destruct (first_separator c rest) as [Hno|(x'' & rest' & -> & Hx'')].
    + rewrite (Split_from_without c rest "" Hno), append_nil_l in Hrest.
      injection Hrest as ->. auto.
    + rewrite (Split_from_at c x'' rest' "" Hx'') in Hrest.
      injection Hrest as _ Hnil. destruct (Split_from_nonempty _ _ _ _ Hnil).
  - intros (-> & Hx & Hy).
    rewrite (Split_from_at c x y "" Hx), (Split_from_without c y "" Hy). reflexivity.
Qed.

(** Two given pieces without the separator: the string is the two joined. *)
Lemma Split_two_exact (c : ascii) (s x y : string) :
  contains_byte c x = false -> contains_byte c y = false ->
  (Split s (String c "") = [x; y] <-> s = x +:+ String c y).
Proof.
  intros Hx Hy. rewrite Split_two_iff.
  split; [intros (Hs & _ & _); exact Hs | intros Hs; repeat split; assumption].
Qed.

(** *** Which requests are accepted *)

Lemma two_pieces (l : list string) :
  length l = 2 -> l = [nth 0 l ""; nth 1 l ""].
Proof. destruct l as [|x [|y [|z l]]]; try discriminate. reflexivity. Qed.

Lemma getAuthPayload_inl (r : Request) (authType payload : string) :
  getAuthPayload r authType = inl payload ->
  Split (Get (Hdr r) "Authorization") " " = [authType; payload].
Proof.
  unfold getAuthPayload.
  set (parts := Split (Get (Hdr r) "Authorization") " ").
  destruct (String.eqb (Get (Hdr r) "Authorization") ""); [discriminate|].
  destruct (Nat.eqb_spec (length parts) 2) as [Hlen|_]; [|discriminate].
  cbn [negb].
  destruct (String.eqb_spec (nth 0 parts "") authType) as [Hty|_]; [|discriminate].
  cbn [negb]. intros [= Hpay].
  pose proof (two_pieces parts Hlen) as Hparts. rewrite Hty, Hpay in Hparts.
  exact Hparts.
Qed.

Lemma getAuthPayload_error_code (r : Request) (authType : string) (e : httpError) :
  getAuthPayload r authType = inr e -> code e = 400 \/ code e = 401.
Proof.
  unfold getAuthPayload.
  destruct (String.eqb (Get (Hdr r) "Authorization") ""); [intros [= <-]; auto|].
  destruct (negb (Nat.eqb (length (Split (Get (Hdr r) "Authorization") " ")) 2));
    [intros [= <-]; auto|].
  destruct (negb (String.eqb (nth 0 (Split (Get (Hdr r) "Authorization") " ") "") authType));
    [intros [= <-]; auto | discriminate].
Qed.

Lemma getAuthPayload_payload_iff (r : Request) (authType payload : string) :
  contains_byte " " authType = false ->
  (getAuthPayload r authType = inl payload <->
   Get (Hdr r) "Authorization" = authType +:+ " " +:+ payload /\
   contains_byte " " payload = false).
Proof.
  intros Hty. split.
  - intros Hp. apply getAuthPayload_inl in Hp.
    apply (Split_two_iff " " _ authType payload) in Hp.
    destruct Hp as (Ha & _ & Hpay). split; assumption.
  - intros [Ha Hpay]. apply getAuthPayload_payload.
    apply (Split_two_iff " " _ authType payload). auto.
Qed.

(** X1. [getAuthPayload] hands out a payload exactly when the header is the
    wanted scheme, one space and the payload, the payload itself without a
    space; the payload is then what follows the space, unchanged. *)
Theorem X1_getAuthPayload_payload_iff (r : Request) (authType payload : string) :
  contains_byte " " authType = false ->
  (getAuthPayload r authType = inl payload <->
   Get (Hdr r) "Authorization" = authType +:+ " " +:+ payload /\
   contains_byte " " payload = false).
Proof.
  intros Hty. split.
  - intros Hp. apply getAuthPayload_inl in Hp.
    apply (Split_two_iff " " _ authType payload) in Hp.
    destruct Hp as (Ha & _ & Hpay). split; assumption.
  - intros [Ha Hpay]. apply getAuthPayload_payload.
    apply (Split_two_iff " " _ authType payload). auto.
Qed.

(** X2. In mode oauth a GET is accepted exactly when the first value of its
    [Authorization] header is, byte for byte, [Bearer sometoken]. *)
Theorem X2_oauth_accepted_iff (h : serverHandler) (r : Request) :
  auth h = "oauth" ->
  (accepted h r <-> Get (Hdr r) "Authorization" = "Bearer sometoken").
Proof.
  intros Ho. split.
  - intros Hacc. unfold accepted in Hacc.
    destruct (getAuthPayload r "Bearer") as [payload|e] eqn:Hp.
    + rewrite (oauth_auth_payload h r payload Ho Hp) in Hacc.
      destruct (String.eqb_spec payload "sometoken") as [Htok|_]; [|discriminate Hacc].
      subst payload.
      apply (getAuthPayload_payload_iff r "Bearer" "sometoken" eq_refl) in Hp.
      exact (proj1 Hp).
    + rewrite (oauth_auth_error h r e Ho Hp) in Hacc. discriminate Hacc.
  - intros Ha. unfold accepted.
    rewrite (oauth_auth_payload h r "sometoken" Ho); [reflexivity|].
    apply getAuthPayload_payload. rewrite Ha. reflexivity.
Qed.

(** X3. In mode basic a GET is accepted exactly when its [Authorization]
    header is [Basic], one space and a payload without a space that
    decodes to [bar:baz]. *)
Theorem X3_basic_accepted_iff (h : serverHandler) (r : Request) :
  auth h = "basic" ->
  (accepted h r <->
   exists payload,
     Get (Hdr r) "Authorization" = "Basic " +:+ payload /\
     contains_byte " " payload = false /\
     decodeBase64 payload = Some "bar:baz").
Proof.
  intros Hb. split.
  - intros Hacc. unfold accepted in Hacc.
    destruct (getAuthPayload r "Basic") as [payload|e] eqn:Hp.
    2:{ rewrite (basic_auth_error h r e Hb Hp) in Hacc. discriminate Hacc. }
    rewrite (basic_auth_payload h r payload Hb Hp) in Hacc.
    apply (getAuthPayload_payload_iff r "Basic" payload eq_refl) in Hp.
    destruct Hp as [Ha Hpay]. exists payload. split; [exact Ha|]. split; [exact Hpay|].
    destruct (decodeBase64 payload) as [creds|]; [|discriminate Hacc].
    destruct (Nat.eqb_spec (length (Split creds ":")) 2) as [Hlen|_];
      [|discriminate Hacc].
    cbn [negb] in Hacc.
    destruct (String.eqb_spec (nth 0 (Split creds ":") "") "bar") as [Hu|_];
      [|discriminate Hacc].
    destruct (String.eqb_spec (nth 1 (Split creds ":") "") "baz") as [Hw|_];
      [|discriminate Hacc].
    pose proof (two_pieces _ Hlen) as Hparts. rewrite Hu, Hw in Hparts.
    apply (Split_two_exact ":" creds "bar" "baz" eq_refl eq_refl) in Hparts.
    rewrite Hparts. reflexivity.
  - intros (payload & Ha & Hpay & Hdec). unfold accepted.
    rewrite (basic_auth_payload h r payload Hb).
    + rewrite Hdec. reflexivity.
    + apply (getAuthPayload_payload_iff r "Basic" payload eq_refl). auto.
Qed.

(** *** Every run of the handler *)

Lemma auth_switch_shapes (h : serverHandler) (r : Request) :
  accepted h r \/
  (exists c m, (c = 400 \/ c = 401) /\
     ServeHTTP_auth h r = ([WriteHeader c; SendMsg m], Returned)) \/
  (~ known_type (auth h) /\ ServeHTTP_auth h r = ([], Panicked "Woe is me!")).
Proof using Type.
  destruct (String.eqb_spec (auth h) "none") as [Hn|Hn].
  { left. unfold accepted, ServeHTTP_auth. rewrite Hn. reflexivity. }
  destruct (String.eqb_spec (auth h) "basic") as [Hb|Hb].
  { destruct (getAuthPayload r "Basic") as [payload|e] eqn:Hp.
    - unfold accepted. rewrite (basic_auth_payload h r payload Hb Hp).
      destruct (decodeBase64 payload) as [creds|]; [|right; left; eauto].
      destruct (negb (Nat.eqb (length (Split creds ":")) 2)); [right; left; eauto|].
      destruct (negb (String.eqb (nth 0 (Split creds ":") "") "bar")
                || negb (String.eqb (nth 1 (Split creds ":") "") "baz"));
        [right; left; eauto | left; reflexivity].
    - right; left. rewrite (basic_auth_error h r e Hb Hp).
      destruct (getAuthPayload_error_code r "Basic" e Hp); eauto. }
  destruct (String.eqb_spec (auth h) "oauth") as [Ho|Ho].
  { destruct (getAuthPayload r "Bearer") as [payload|e] eqn:Hp.
    - unfold accepted. rewrite (oauth_auth_payload h r payload Ho Hp).
      destruct (negb (String.eqb payload "sometoken"));
        [right; left; eauto | left; reflexivity].
    - right; left. rewrite (oauth_auth_error h r e Ho Hp).
      destruct (getAuthPayload_error_code r "Bearer" e Hp); eauto. }
  right; right. split.
  - rewrite known_type_cases. intros [H|[H|H]]; contradiction.
  - unfold ServeHTTP_auth.
    apply String.eqb_neq in Hn. apply String.eqb_neq in Hb. apply String.eqb_neq in Ho.
    rewrite Hn, Hb, Ho. reflexivity.
Qed.

(** The seven shapes a run of the handler can have. *)
Lemma ServeHTTP_shapes (h : serverHandler) (r : Request) :
  let trying := SendMsg ("Trying to serve " +:+ quote (URL_String (Url r))) in
  (Method r = "POST" /\
     ServeHTTP h r = ([WriteHeader 200; SendStop], Returned)) \/
  (Method r <> "GET" /\ Method r <> "POST" /\
     ServeHTTP h r = ([WriteHeader 405], Returned)) \/
  (Method r = "GET" /\ ~ accepted h r /\
     exists c m, (c = 400 \/ c = 401) /\
       ServeHTTP h r = ([WriteHeader c; SendMsg m], Returned)) \/
  (Method r = "GET" /\ ~ accepted h r /\ ~ known_type (auth h) /\
     ServeHTTP h r = ([], Panicked "Woe is me!")) \/
  (Method r = "GET" /\ accepted h r /\ Base (Path (Url r)) <> "prog.aci" /\
     ServeHTTP h r = ([trying; SendMsg "  not found."; WriteHeader 404], Next tt)) \/
  (Method r = "GET" /\ accepted h r /\ Base (Path (Url r)) = "prog.aci" /\
     exists data, prepareACI = inl data /\
       ServeHTTP h r
       = ([trying; SendMsg "  serving"; CallPrepareACI; Write data; SendMsg "    done."],
          Next tt)) \/
  (Method r = "GET" /\ accepted h r /\ Base (Path (Url r)) = "prog.aci" /\
     exists err, prepareACI = inr err /\
       ServeHTTP h r
       = ([trying; SendMsg "  serving"; CallPrepareACI; WriteHeader 500;
           SendMsg ("    failed (" +:+ err +:+ ")")],
          Next tt)).
Proof.
  intros trying. subst trying.
  destruct (String.eqb_spec (Method r) "POST") as [Hp|Hp].
  { left. split; [exact Hp | exact (ServeHTTP_POST h r Hp)]. }
  destruct (String.eqb_spec (Method r) "GET") as [Hg|Hg].
  2:{ right; left. repeat split; try assumption.
      exact (ServeHTTP_other_method h r Hg Hp). }
  destruct (auth_switch_shapes h r) as [Hacc|[(c & m & Hc & Hrej)|[Hnk Hpanic]]].
  - destruct (String.eqb_spec (Base (Path (Url r))) "prog.aci") as [Hbase|Hbase].
    + rewrite (accepted_proceeds h r Hg Hacc), (serve_prog_aci r Hbase).
      destruct prepareACI as [data|err].
      * do 5 right; left. repeat split; try assumption. exists data. auto.
      * do 6 right. repeat split; try assumption. exists err. auto.
    + do 4 right; left. repeat split; try assumption.
      rewrite (accepted_proceeds h r Hg Hacc). exact (serve_not_found r Hbase).
  - do 2 right; left. split; [exact Hg|]. split.
    + exact (rejected_not_accepted h r c m Hrej).
    + exists c, m. split; [exact Hc | exact (rejected_returns h r c m Hg Hrej)].
  - do 3 right; left. split; [exact Hg|]. split.
    + intros Hacc. unfold accepted in Hacc. rewrite Hpanic in Hacc. discriminate Hacc.
    + split; [exact Hnk|]. rewrite (ServeHTTP_GET h r Hg), Hpanic. reflexivity.
Qed.

(** X4. Under one of the three types a request is answered 200, 400, 401,
    404, 405 or 500, and 200 only to a POST or to an accepted GET of
    [prog.aci] whose build succeeded. *)
Theorem X4_status_codes (h : serverHandler) (r : Request) :
  known_type (auth h) ->
  let s := status (trace (ServeHTTP h r)) in
  (s = 200 \/ s = 400 \/ s = 401 \/ s = 404 \/ s = 405 \/ s = 500) /\
  (s = 200 <->
   Method r = "POST" \/
   (Method r = "GET" /\ accepted h r /\ Base (Path (Url r)) = "prog.aci" /\
    exists data, prepareACI = inl data)).
Proof.
  intros Hk s. subst s.
  destruct (ServeHTTP_shapes h r)
    as [(Hm & ->)|[(Hg & Hp & ->)|[(Hm & Hna & c & m & Hc & ->)
       |[(Hm & Hna & Hnk & _)|[(Hm & Hacc & Hb & ->)
       |[(Hm & Hacc & Hb & data & Hd & ->)|(Hm & Hacc & Hb & err & He & ->)]]]]]].
  - split; [left; reflexivity|]. split; auto.
  - split; [do 4 right; left; reflexivity|].
    split; [discriminate|]. intros [H|(H & _)]; contradiction.
  - change (status (trace ([WriteHeader c; SendMsg m], @Returned unit))) with c.
    split; [destruct Hc; auto|].
    split; [destruct Hc; congruence|].
    intros [H|(_ & H & _)]; [congruence | contradiction].
  - contradiction.
  - split; [do 3 right; left; reflexivity|].
    split; [discriminate|]. intros [H|(_ & _ & H & _)]; [congruence | contradiction].
  - split; [left; reflexivity|]. split; [|reflexivity].
    intros _. right. repeat split; try assumption. exists data. exact Hd.
  - split; [do 5 right; reflexivity|].
    split; [discriminate|]. intros [H|(_ & _ & _ & data & Hd)]; congruence.
Qed.

(** X5. Bytes go out only to an accepted GET of [prog.aci], and they are
    exactly what the builder returned: every other request, a rejected
    one above all, gets an empty body. *)
Theorem X5_body_only_when_accepted (h : serverHandler) (r : Request) :
  body (trace (ServeHTTP h r)) <> "" ->
  Method r = "GET" /\ accepted h r /\ Base (Path (Url r)) = "prog.aci" /\
  prepareACI = inl (body (trace (ServeHTTP h r))).
Proof.
  destruct (ServeHTTP_shapes h r)
    as [(Hm & ->)|[(Hg & Hp & ->)|[(Hm & Hna & c & m & Hc & ->)
       |[(Hm & Hna & Hnk & ->)|[(Hm & Hacc & Hb & ->)
       |[(Hm & Hacc & Hb & data & Hd & ->)|(Hm & Hacc & Hb & err & He & ->)]]]]]];
    intros Hbody; try (exfalso; apply Hbody; reflexivity).
  repeat split; assumption.
Qed.

(** X6. The builder is called at most once in a run, and it is called
    exactly for an accepted GET of [prog.aci]: never for a rejected
    request, another path or another method. *)
Theorem X6_builder_called_iff (h : serverHandler) (r : Request) :
  builds (trace (ServeHTTP h r)) <= 1 /\
  (builds (trace (ServeHTTP h r)) = 1 <->
   Method r = "GET" /\ accepted h r /\ Base (Path (Url r)) = "prog.aci").
Proof.
  destruct (ServeHTTP_shapes h r)
    as [(Hm & ->)|[(Hg & Hp & ->)|[(Hm & Hna & c & m & Hc & ->)
       |[(Hm & Hna & Hnk & ->)|[(Hm & Hacc & Hb & ->)
       |[(Hm & Hacc & Hb & data & Hd & ->)|(Hm & Hacc & Hb & err & He & ->)]]]]]];
    cbn [trace fst builds]; (split; [lia|]); split;
    try discriminate; try (intros _; repeat split; assumption);
    try reflexivity.
  - intros (H & _). congruence.
  - intros (H & _). contradiction.
  - intros (_ & H & _). contradiction.
  - intros (_ & H & _). contradiction.
  - intros (_ & _ & H). contradiction.
Qed.

(** X7. Only a POST sends a shutdown signal, and it sends one; only a GET
    sends diagnostic messages.  No run sends on both channels. *)
Theorem X7_channels_by_method (h : serverHandler) (r : Request) :
  (stops (trace (ServeHTTP h r)) = 1 <-> Method r = "POST") /\
  (stops (trace (ServeHTTP h r)) = 0 <-> Method r <> "POST") /\
  (msgs (trace (ServeHTTP h r)) <> [] -> Method r = "GET") /\
  (stops (trace (ServeHTTP h r)) = 0 \/ msgs (trace (ServeHTTP h r)) = []).
Proof.
  destruct (ServeHTTP_shapes h r)
    as [(Hm & ->)|[(Hg & Hp & ->)|[(Hm & Hna & c & m & Hc & ->)
       |[(Hm & Hna & Hnk & ->)|[(Hm & Hacc & Hb & ->)
       |[(Hm & Hacc & Hb & data & Hd & ->)|(Hm & Hacc & Hb & err & He & ->)]]]]]];
    cbn [trace fst stops msgs];
    (split; [split; [try discriminate; auto | intros H; try reflexivity; congruence]|]);
    (split; [split; [intros H; try discriminate H; congruence
                    | intros H; try reflexivity; contradiction]|]);
    (split; [intros H; try assumption; contradiction|]); auto.
Qed.

(** *** Handlers and the control loop together *)

Lemma receptions_app (t1 t2 : list event) :
  receptions (t1 ++ t2) = receptions t1 ++ receptions t2.
Proof.
  induction t1 as [|e t1 IH]; [reflexivity|].
  destruct e; cbn [receptions app]; rewrite IH; reflexivity.
Qed.

Lemma msgs_app (t1 t2 : list event) : msgs (t1 ++ t2) = msgs t1 ++ msgs t2.
Proof.
  induction t1 as [|e t1 IH]; [reflexivity|].
  destruct e; cbn [msgs app]; rewrite IH; reflexivity.
Qed.

Lemma stops_app (t1 t2 : list event) : stops (t1 ++ t2) = stops t1 + stops t2.
Proof.
  induction t1 as [|e t1 IH]; [reflexivity|].
  destruct e; cbn [stops app]; rewrite IH; reflexivity.
Qed.

(** As long as no shutdown signal is sent, [loop] prints every message and
    goes on with what follows. *)
Lemma loop_before_stop (t : list event) (rest : list recv) :
  stops t = 0 ->
  loop (receptions t ++ rest) = (msgs t ++ fst (loop rest), snd (loop rest)).
Proof.
  induction t as [|e t IH]; intros Hs.
  - cbn [receptions msgs app]. destruct (loop rest). reflexivity.
  - destruct e; cbn [stops] in Hs; try discriminate Hs;
      cbn [receptions msgs app]; try exact (IH Hs).
    rewrite loop_msg, (IH Hs). reflexivity.
Qed.

Lemma startServer_loop_running (t : list event) :
  stops t = 0 -> startServer_loop (receptions t) = (msgs t, false).
Proof.
  intros Hs. unfold startServer_loop.
  rewrite <- (app_nil_r (receptions t)), (loop_before_stop t [] Hs).
  cbn [loop fst snd]. rewrite app_nil_r. reflexivity.
Qed.

Lemma startServer_loop_stopped (t1 t2 : list event) :
  stops t1 = 0 ->
  startServer_loop (receptions (t1 ++ SendStop :: t2)) = (msgs t1 ++ ["Byebye"], true).
Proof.
  intros Hs. unfold startServer_loop.
  rewrite receptions_app. cbn [receptions].
  rewrite (loop_before_stop t1 _ Hs). cbn [loop fst snd]. rewrite app_nil_r.
  reflexivity.
Qed.

(** X9. What the handlers send before the first shutdown signal is printed,
    message by message and in order, and the loop stays; with the first
    shutdown signal the loop returns and the farewell is the last line;
    nothing sent after it is printed. *)
Theorem X9_loop_prints_what_handlers_send :
  (forall t, stops t = 0 -> startServer_loop (receptions t) = (msgs t, false)) /\
  (forall t1 t2, stops t1 = 0 ->
     startServer_loop (receptions (t1 ++ SendStop :: t2))
     = (msgs t1 ++ ["Byebye"], true)).
Proof. split; [exact startServer_loop_running | exact startServer_loop_stopped]. Qed.

Lemma stops_by_method (h : serverHandler) (r : Request) :
  (Method r = "POST" -> ServeHTTP h r = ([WriteHeader 200; SendStop], Returned)) /\
  (Method r <> "POST" -> stops (trace (ServeHTTP h r)) = 0).
Proof.
  split; [exact (ServeHTTP_POST h r)|]. intros Hnp.
  destruct (ServeHTTP_shapes h r)
    as [(Hm & ->)|[(Hg & Hp & ->)|[(Hm & Hna & c & m & Hc & ->)
       |[(Hm & Hna & Hnk & ->)|[(Hm & Hacc & Hb & ->)
       |[(Hm & Hacc & Hb & data & Hd & ->)|(Hm & Hacc & Hb & err & He & ->)]]]]]];
    try reflexivity.
  contradiction.
Qed.

(** *** The process *)

Lemma count_app (p : proc_event -> bool) (l1 l2 : list proc_event) :
  count p (l1 ++ l2) = count p l1 + count p l2.
Proof. unfold count. rewrite List.filter_app, length_app. reflexivity. Qed.

Lemma count_cons (p : proc_event -> bool) (e : proc_event) (l : list proc_event) :
  count p (e :: l) = (if p e then 1 else 0) + count p l.
Proof. unfold count. cbn [List.filter]. destruct (p e); reflexivity. Qed.

Lemma count_prints (p : proc_event -> bool) (out : list string) (f : string -> string) :
  (forall text, p (Print text) = false) ->
  count p (map (fun msg => Print (f msg)) out) = 0.
Proof.
  intros Hp. induction out as [|m out IH]; [reflexivity|].
  cbn [map]. rewrite count_cons, Hp, IH. reflexivity.
Qed.

Lemma startServer_handler_cases (args : list string) :
  (exists a rest, args = a :: rest /\ known_type a /\
     startServer_handler args = inr {| auth := a |}) \/
  (~ (exists a rest, args = a :: rest /\ known_type a) /\
     exists err, startServer_handler args = inl err).
Proof.
  destruct args as [|a rest].
  - right. split; [intros (a & rest & H & _); discriminate H | eexists; reflexivity].
  - unfold startServer_handler.
    destruct (find_type_known a) as [[Hk ->]|[Hnk ->]].
    + left. exists a, rest. rewrite (known_type_nonempty a Hk). auto.
    + right. split; [|eexists; reflexivity].
      intros (a' & rest' & [= <- <-] & Hk). contradiction.
Qed.

Lemma startServer_creds_known (host a : string) :
  known_type a ->
  exists creds, startServer_creds host a = Some creds /\
    count is_StartTLS creds = 0 /\ count is_Close creds = 0.
Proof.
  intros Hk. apply known_type_cases in Hk. destruct Hk as [-> | [-> | ->]];
    eexists; (split; [reflexivity | split; reflexivity]).
Qed.

Lemma loop_returned_iff (sched : list recv) :
  snd (loop sched) = true <-> In RecvStop sched.
Proof using Type.
  induction sched as [|[|msg] rest IH].
  - split; [discriminate | intros []].
  - split; [intros _; left; reflexivity | reflexivity].
  - rewrite loop_msg. cbn [snd In]. rewrite IH.
    split; [intros Hin; right; exact Hin | intros [Heq|Hin]; [discriminate Heq | exact Hin]].
Qed.

(** The runs of [startServer], one by one. *)
Lemma startServer_runs (args : list string) (tsURL : string)
    (parsed : string + string) (sched : list recv) :
  let known := exists a rest, args = a :: rest /\ known_type a in
  (~ known /\ exists err, startServer args tsURL parsed sched = ([], Ret (Some err))) \/
  (known /\ exists err, parsed = inr err /\
     startServer args tsURL parsed sched = ([StartTLS; Close], Ret (Some err))) \/
  (known /\ (exists host, parsed = inl host) /\ In RecvStop sched /\
     exists prints,
       count is_StartTLS prints = 0 /\ count is_Close prints = 0 /\
       startServer args tsURL parsed sched
       = (StartTLS :: prints ++ [Print ("Byebye" +:+ nl); Close], Ret None)) \/
  (known /\ (exists host, parsed = inl host) /\ ~ In RecvStop sched /\
     exists prints,
       count is_StartTLS prints = 0 /\ count is_Close prints = 0 /\
       startServer args tsURL parsed sched = (StartTLS :: prints, Waiting)).
Proof using Type.
  intros known. subst known. unfold startServer.
  destruct (startServer_handler_cases args)
    as [(a & rest & Hargs & Hk & ->)|(Hnk & err & ->)].
  2:{ left. split; [exact Hnk | exists err; reflexivity]. }
  assert (Hknown : exists a rest, args = a :: rest /\ known_type a) by eauto.
  destruct parsed as [host|err].
  2:{ right; left. split; [exact Hknown | exists err; auto]. }
  cbn [auth].
  destruct (startServer_creds_known host a Hk) as (creds & -> & Hcs & Hcc).
  pose proof (loop_returned_iff sched) as Hret.
  destruct (loop sched) as [out returned]. cbn [snd] in Hret.
  assert (Hprints : forall p,
             (forall text, p (Print text) = false) -> count p creds = 0 ->
             count p (creds
                        ++ Print ("Ready, waiting for connections at " +:+ tsURL +:+ nl)
                        :: map (fun msg => Print (msg +:+ nl)) out) = 0).
  { intros p Hp Hc. rewrite count_app, count_cons, Hc, Hp.
    rewrite (count_prints p out (fun msg => msg +:+ nl) Hp). reflexivity. }
  destruct returned.
  - right; right; left. split; [exact Hknown|]. split; [eauto|].
    split; [apply Hret; reflexivity|].
    exists (creds
              ++ Print ("Ready, waiting for connections at " +:+ tsURL +:+ nl)
              :: map (fun msg => Print (msg +:+ nl)) out).
    split; [|split].
    + apply Hprints; [reflexivity | exact Hcs].
    + apply Hprints; [reflexivity | exact Hcc].
    + rewrite <- List.app_assoc. reflexivity.
  - right; right; right. split; [exact Hknown|]. split; [eauto|].
    split; [intros Hin; apply Hret in Hin; discriminate Hin|].
    exists (creds
              ++ Print ("Ready, waiting for connections at " +:+ tsURL +:+ nl)
              :: map (fun msg => Print (msg +:+ nl)) out).
    split; [|split]; [| | reflexivity].
    + apply Hprints; [reflexivity | exact Hcs].
    + apply Hprints; [reflexivity | exact Hcc].
Qed.

(** X11. [startServer] starts the test server exactly when its first
    argument is one of the three types, and at most once.  Whenever it
    returns, with nil or with an error, every server it started has been
    closed, once, as the last thing it did; while it waits in the loop the
    server stays open.  It never panics. *)
Theorem X11_server_started_and_closed (args : list string) (tsURL : string)
    (parsed : string + string) (sched : list recv) :
  let evs := fst (startServer args tsURL parsed sched) in
  let res := snd (startServer args tsURL parsed sched) in
  (count is_StartTLS evs = 1 <-> exists a rest, args = a :: rest /\ known_type a) /\
  (count is_StartTLS evs = 0 <-> ~ exists a rest, args = a :: rest /\ known_type a) /\
  (forall err, res = Ret err ->
     count is_Close evs = count is_StartTLS evs /\
     (evs = [] \/ exists evs', evs = evs' ++ [Close])) /\
  (res = Waiting -> count is_Close evs = 0) /\
  (forall v, res <> Crashed v).
Proof.
  intros evs res. subst evs res.
  destruct (startServer_runs args tsURL parsed sched)
    as [(Hnk & err & ->)|[(Hk & err & _ & ->)
       |[(Hk & _ & _ & prints & Hs & Hc & ->)|(Hk & _ & _ & prints & Hs & Hc & ->)]]];
    cbn [fst snd].
  - split; [split; [discriminate | contradiction]|].
    split; [split; auto|]. split; [auto|]. split; [reflexivity | discriminate].
  - split; [split; auto|]. split; [split; [discriminate | contradiction]|].
    split; [intros _ _; split; [reflexivity | right; exists [StartTLS]; reflexivity]|].
    split; [discriminate | discriminate].
  - assert (Hstart : count is_StartTLS
                       (StartTLS :: prints ++ [Print ("Byebye" +:+ nl); Close]) = 1).
    { rewrite count_cons, count_app, Hs. reflexivity. }
    rewrite Hstart.
    split; [split; auto|]. split; [split; [discriminate | contradiction]|].
    split.
    { intros _ _. split.
      - rewrite count_cons, count_app, Hc. reflexivity.
      - right. exists (StartTLS :: prints ++ [Print ("Byebye" +:+ nl)]).
        cbn [app]. rewrite <- app_assoc. reflexivity. }
    split; discriminate.
  - assert (Hstart : count is_StartTLS (StartTLS :: prints) = 1).
    { rewrite count_cons, Hs. reflexivity. }
    rewrite Hstart.
    split; [split; auto|]. split; [split; [discriminate | contradiction]|].
    split; [discriminate|].
    split; [intros _; rewrite count_cons, Hc; reflexivity | discriminate].
Qed.


Lemma success_status (code : Z) :
  negb (Z.eqb (Z.quot code 100) 2) = false <-> (200 <= code <= 299)%Z.
Proof.
  rewrite negb_false_iff, Z.eqb_eq.
  pose proof (Z.quot_rem' code 100) as Hqr.
  split.
  - intros Hq. rewrite Hq in Hqr.
    assert (Hpos : (0 <= code)%Z).
    { destruct (Z.le_gt_cases 0 code) as [H|H]; [exact H|].
      pose proof (Z.quot_le_upper_bound code 100 0 ltac:(lia) ltac:(lia)). lia. }
    pose proof (Z.rem_bound_pos code 100 Hpos ltac:(lia)). lia.
  - intros Hc. pose proof (Z.rem_bound_pos code 100 ltac:(lia) ltac:(lia)). lia.
Qed.

(** The runs of [stopServer], one by one. *)
Lemma stopServer_runs (args : list string) (post : string -> (string * Z) + string) :
  (args = [] /\ stopServer args post = ([], Some "expected a host")) \/
  (exists host rest err, args = host :: rest /\ post host = inr err /\
     stopServer args post
     = ([Post host],
        Some ("failed to send post to " +:+ quote host +:+ ": " +:+ err))) \/
  (exists host rest Status code, args = host :: rest /\ post host = inl (Status, code) /\
     ~ (200 <= code <= 299)%Z /\
     stopServer args post
     = ([Post host; Print ("Response status: " +:+ Status +:+ nl); CloseBody],
        Some "got a nonsuccess status")) \/
  (exists host rest Status code, args = host :: rest /\ post host = inl (Status, code) /\
     (200 <= code <= 299)%Z /\
     stopServer args post
     = ([Post host; Print ("Response status: " +:+ Status +:+ nl); CloseBody], None)).
Proof.
  destruct args as [|host rest]; [left; auto|]. right.
  unfold stopServer. destruct (post host) as [[Status code]|err] eqn:Hpost.
  - right. destruct (negb (Z.eqb (Z.quot code 100) 2)) eqn:Hq.
    + left. exists host, rest, Status, code.
      split; [reflexivity|]. split; [exact Hpost|]. split; [|reflexivity].
      intros Hc. apply success_status in Hc. congruence.
    + right. exists host, rest, Status, code. apply success_status in Hq. auto.
  - left. exists host, rest, err. auto.
Qed.

(** X13. [stopServer] returns nil exactly when it is given a host, the POST
    to that host gets a response and the status of the response is one of
    200 to 299.  It posts at most once, to its first argument, and closes
    the body of every response it got. *)
Theorem X13_stopServer_succeeds_iff (args : list string)
    (post : string -> (string * Z) + string) :
  let evs := fst (stopServer args post) in
  (snd (stopServer args post) = None <->
   exists host rest Status code,
     args = host :: rest /\ post host = inl (Status, code) /\ (200 <= code <= 299)%Z) /\
  count is_Post evs <= 1 /\
  (forall host, In (Post host) evs -> exists rest, args = host :: rest) /\
  (count is_CloseBody evs = 1 <->
   exists host rest resp, args = host :: rest /\ post host = inl resp) /\
  count is_CloseBody evs <= 1.
Proof.
  intros evs. subst evs.
  destruct (stopServer_runs args post)
    as [[-> ->]|[(host & rest & err & -> & Hp & ->)
       |[(host & rest & Status & code & -> & Hp & Hc & ->)
        |(host & rest & Status & code & -> & Hp & Hc & ->)]]];
    cbn [fst snd].
  - split; [split; [discriminate | intros (? & ? & ? & ? & H & _); discriminate H]|].
    split; [cbn; lia|]. split; [intros host []|].
    split; [split; [discriminate | intros (? & ? & ? & H & _); discriminate H]|cbn; lia].
  - split.
    { split; [discriminate|].
      intros (host' & rest' & Status & code & [= <- <-] & Hp' & _). congruence. }
    split; [cbn; lia|].
    split; [intros host' [[= <-]|[]]; eauto|].
    split; [|cbn; lia].
    split; [discriminate|].
    intros (host' & rest' & resp & [= <- <-] & Hp'). congruence.
  - split.
    { split; [discriminate|].
      intros (host' & rest' & Status' & code' & [= <- <-] & Hp' & Hc').
      rewrite Hp in Hp'. injection Hp' as <- <-. contradiction. }
    split; [cbn; lia|].
    split; [intros host' [[= <-]|[H|[H|[]]]]; try discriminate H; eauto|].
    split; [|cbn; lia]. split; [eauto 6 | reflexivity].
  - split; [split; [eauto 8 | reflexivity]|].
    split; [cbn; lia|].
    split; [intros host' [[= <-]|[H|[H|[]]]]; try discriminate H; eauto|].
    split; [|cbn; lia]. split; [eauto 6 | reflexivity].
Qed.

(** X14. [stopServer] and the handler agree: when the POST of [stopServer]
    is answered by [ServeHTTP], whatever the handler, the path and the
    headers, [stopServer] finds a success status and returns nil. *)
Theorem X14_stopServer_accepts_handler_answer (h : serverHandler) (r : Request)
    (host Status : string) (rest : list string) :
  Method r = "POST" ->
  stopServer (host :: rest)
    (fun _ => inl (Status, Z.of_nat (status (trace (ServeHTTP h r)))))
  = ([Post host; Print ("Response status: " +:+ Status +:+ nl); CloseBody], None).
Proof. intros Hm. rewrite (ServeHTTP_POST h r Hm). reflexivity. Qed.


(** *** The paths that are served *)

Lemma list_of_append (a b : string) :
  list_ascii_of_string (a +:+ b) = list_ascii_of_string a ++ list_ascii_of_string b.
Proof.
  induction a as [|c a IH]; [reflexivity|].
  rewrite append_cons. cbn [list_ascii_of_string app]. rewrite IH. reflexivity.
Qed.

Lemma string_of_app (l1 l2 : list ascii) :
  string_of_list_ascii (l1 ++ l2) = string_of_list_ascii l1 +:+ string_of_list_ascii l2.
Proof.
  induction l1 as [|c l1 IH]; [reflexivity|].
  cbn [app string_of_list_ascii]. rewrite append_cons, IH. reflexivity.
Qed.

Lemma list_of_slashes (n : nat) : list_ascii_of_string (slashes n) = repeat slash n.
Proof. induction n as [|n IH]; [reflexivity|]. cbn. rewrite IH. reflexivity. Qed.

Lemma rev_repeat_slash (n : nat) : rev (repeat slash n) = repeat slash n.
Proof.
  induction n as [|n IH]; [reflexivity|].
  cbn [repeat rev]. rewrite IH. clear IH.
  induction n as [|n IH]; [reflexivity|]. cbn [repeat app]. rewrite IH. reflexivity.
Qed.

Lemma strip_separators_spec (l : list ascii) :
  exists n,
    l = repeat slash n ++ strip_separators l /\
    (strip_separators l = [] \/
     exists c t, strip_separators l = c :: t /\ IsPathSeparator c = false).
Proof.
  induction l as [|c l (n & Hl & Hs)].
  - exists 0. split; [reflexivity | left; reflexivity].
  - cbn [strip_separators]. destruct (IsPathSeparator c) eqn:Hc.
    + exists (S n). split; [|exact Hs].
      unfold IsPathSeparator in Hc. apply Ascii.eqb_eq in Hc. subst c.
      cbn [repeat app]. rewrite <- Hl. reflexivity.
    + exists 0. split; [reflexivity|]. right. exists c, l. auto.
Qed.

Lemma last_element_spec (l : list ascii) :
  exists rest,
    l = last_element l ++ rest /\
    forallb (fun c => negb (IsPathSeparator c)) (last_element l) = true /\
    (rest = [] \/ exists t, rest = slash :: t).
Proof.
  induction l as [|c l (rest & Hl & He & Hr)].
  - exists []. split; [reflexivity|]. split; [reflexivity | left; reflexivity].
  - cbn [last_element]. destruct (IsPathSeparator c) eqn:Hc.
    + exists (c :: l). split; [reflexivity|]. split; [reflexivity|].
      right. exists l. unfold IsPathSeparator in Hc. apply Ascii.eqb_eq in Hc.
      rewrite Hc. reflexivity.
    + exists rest. split; [cbn [app]; rewrite <- Hl; reflexivity|].
      split; [cbn [forallb]; rewrite Hc, He; reflexivity | exact Hr].
Qed.

Lemma strip_slashes (n : nat) (l : list ascii) :
  strip_separators (repeat slash n ++ l) = strip_separators l.
Proof. induction n as [|n IH]; [reflexivity | exact IH]. Qed.

Lemma last_element_of (e rest : list ascii) :
  forallb (fun c => negb (IsPathSeparator c)) e = true ->
  rest = [] \/ (exists t, rest = slash :: t) ->
  last_element (e ++ rest) = e.
Proof.
  intros He Hr. induction e as [|c e IH].
  - destruct Hr as [->|[t ->]]; reflexivity.
  - cbn [forallb] in He. apply andb_true_iff in He as [Hc He].
    apply negb_true_iff in Hc. cbn [app last_element]. rewrite Hc, (IH He).
    reflexivity.
Qed.

Lemma no_slash_list (name : string) :
  contains_byte slash name = false ->
  forallb (fun c => negb (IsPathSeparator c)) (list_ascii_of_string name) = true.
Proof.
  induction name as [|c name IH]; [reflexivity|].
  cbn [contains_byte list_ascii_of_string forallb]. intros Hn.
  apply orb_false_iff in Hn as [Hc Hn]. rewrite (IH Hn), andb_true_r.
  unfold IsPathSeparator. rewrite Ascii.eqb_sym, Hc. reflexivity.
Qed.

Lemma forallb_rev (f : ascii -> bool) (l : list ascii) :
  forallb f (rev l) = forallb f l.
Proof.
  induction l as [|c l IH]; [reflexivity|].
  cbn [rev forallb]. rewrite forallb_app, IH. cbn [forallb].
  rewrite andb_true_r. apply andb_comm.
Qed.

(** [Base] gives a name that has no slash, is not empty and is not a dot
    exactly for the paths that end in that name, after a slash or at the
    start, with any number of slashes behind it. *)
Lemma Base_name_iff (name p : string) :
  name <> "" -> name <> "." -> contains_byte slash name = false ->
  (Base p = name <->
   exists dir n,
     p = dir +:+ name +:+ slashes n /\ (dir = "" \/ exists d, dir = d +:+ "/")).
Proof.
  intros Hne Hdot Hns. split.
  - intros Hb. destruct p as [|c0 p0]; [cbn in Hb; congruence|].
    unfold Base in Hb.
    set (l := list_ascii_of_string (String c0 p0)) in *.
    destruct (strip_separators_spec (rev l)) as (n & Hl & _).
    destruct (last_element_spec (strip_separators (rev l))) as (rest & Hs & _ & Hr).
    set (e := last_element (strip_separators (rev l))) in *.
    assert (He : string_of_list_ascii (rev e) = name).
    { destruct e as [|c e']; [|exact Hb].
      subst name. cbn in Hns. rewrite Ascii.eqb_refl in Hns. discriminate Hns. }
    assert (Hp : l = rev rest ++ rev e ++ repeat slash n).
    { rewrite <- (rev_involutive l), Hl, Hs, !rev_app_distr, rev_repeat_slash.
      rewrite <- List.app_assoc. reflexivity. }
    exists (string_of_list_ascii (rev rest)), n. split.
    + rewrite <- (string_of_list_ascii_of_string (String c0 p0)). fold l.
      rewrite Hp, !string_of_app, He, <- list_of_slashes,
        string_of_list_ascii_of_string.
      reflexivity.
    + destruct Hr as [->|[t ->]]; [left; reflexivity|].
      right. exists (string_of_list_ascii (rev t)).
      cbn [rev]. rewrite string_of_app. reflexivity.
  - intros (dir & n & -> & Hdir).
    assert (Hl : rev (list_ascii_of_string (dir +:+ name +:+ slashes n))
                 = repeat slash n ++ rev (list_ascii_of_string name)
                     ++ rev (list_ascii_of_string dir)).
    { rewrite !list_of_append, list_of_slashes, !rev_app_distr, rev_repeat_slash.
      rewrite <- List.app_assoc. reflexivity. }
    assert (Hrest : rev (list_ascii_of_string dir) = []
                    \/ exists t, rev (list_ascii_of_string dir) = slash :: t).
    { destruct Hdir as [->|[d ->]]; [left; reflexivity|].
      right. rewrite list_of_append, rev_app_distr. eexists. reflexivity. }
    assert (Hname : forallb (fun c => negb (IsPathSeparator c))
                      (rev (list_ascii_of_string name)) = true).
    { rewrite forallb_rev. apply no_slash_list, Hns. }
    unfold Base.
    destruct (dir +:+ name +:+ slashes n) as [|c0 p0] eqn:Hp.
    { exfalso. apply (f_equal list_ascii_of_string) in Hp.
      rewrite !list_of_append in Hp. cbn [list_ascii_of_string] in Hp.
      apply app_eq_nil in Hp as [_ Hp]. apply app_eq_nil in Hp as [Hp _].
      apply Hne. rewrite <- (string_of_list_ascii_of_string name), Hp. reflexivity. }
    rewrite Hl, strip_slashes.
    assert (Hstrip : strip_separators (rev (list_ascii_of_string name)
                                         ++ rev (list_ascii_of_string dir))
                     = rev (list_ascii_of_string name) ++ rev (list_ascii_of_string dir)).
    { destruct (rev (list_ascii_of_string name)) as [|c e] eqn:He.
      - exfalso. apply Hne.
        rewrite <- (string_of_list_ascii_of_string name),
          <- (rev_involutive (list_ascii_of_string name)), He. reflexivity.
      - cbn [forallb] in Hname. apply andb_true_iff in Hname as [Hc _].
        apply negb_true_iff in Hc. cbn [app strip_separators]. rewrite Hc.
        reflexivity. }
    rewrite Hstrip, (last_element_of _ _ Hname Hrest).
    destruct (rev (list_ascii_of_string name)) as [|c e] eqn:He.
    + exfalso. apply Hne.
      rewrite <- (string_of_list_ascii_of_string name),
        <- (rev_involutive (list_ascii_of_string name)), He. reflexivity.
    + rewrite <- He, rev_involutive. apply string_of_list_ascii_of_string.
Qed.

(** X8. The image is asked for, [Base] of the path being [prog.aci],
    exactly by the paths that end in [prog.aci], at the start of the path
    or after a slash, followed by any number of slashes: a request for
    [/x/prog.aci/] is served like one for [/x/prog.aci]. *)
Theorem X8_paths_of_the_image (p : string) :
  Base p = "prog.aci" <->
  exists dir n,
    p = dir +:+ "prog.aci" +:+ slashes n /\ (dir = "" \/ exists d, dir = d +:+ "/").
Proof. apply Base_name_iff; [discriminate | discriminate | reflexivity]. Qed.

(** *** Rejection before routing *)

Lemma auth_by_header (h : serverHandler) (r r' : Request) :
  Hdr r = Hdr r' -> ServeHTTP_auth h r = ServeHTTP_auth h r'.
Proof.
  intros Hh. unfold ServeHTTP_auth, getAuthPayload. rewrite Hh. reflexivity.
Qed.

(** X22. A GET that is not accepted is answered without a look at its
    path: two such requests with the same headers get the same run of the
    handler, the same status and the same diagnostic.  Who has no
    credentials cannot tell which paths exist. *)
Theorem X22_rejection_hides_path (h : serverHandler) (r r' : Request) :
  Method r = "GET" -> Method r' = "GET" -> Hdr r = Hdr r' ->
  ~ accepted h r ->
  ServeHTTP h r = ServeHTTP h r'.
Proof.
  intros Hm Hm' Hh Hna.
  rewrite (ServeHTTP_GET h r Hm), (ServeHTTP_GET h r' Hm'), <- (auth_by_header h r r' Hh).
  destruct (auth_switch_shapes h r) as [Hacc|[(c & m & _ & ->)|[_ ->]]];
    [contradiction | reflexivity | reflexivity].
Qed.

(** *** The revision on the library *)

Lemma start_types_lookup (a : string) :
  start_types !! a
  = if String.eqb a "none" then Some lib_None
    else if String.eqb a "basic" then Some lib_Basic
    else if String.eqb a "oauth" then Some lib_Oauth
    else None.
Proof.
  unfold start_types.
  destruct (String.eqb_spec a "none") as [->|Hn]; [reflexivity|].
  destruct (String.eqb_spec a "basic") as [->|Hb]; [reflexivity|].
  destruct (String.eqb_spec a "oauth") as [->|Ho]; [reflexivity|].
  rewrite !lookup_insert_ne by congruence. apply lookup_empty.
Qed.

(** X24. [start], which looks the type up in a map, and [startServer],
    which searches the list of types, take the same arguments: each of the
    three names gives its type, and every other argument, and none, gives
    the same error text in both. *)
Theorem X24_start_agrees_with_startServer (args : list string) :
  (forall err, start_type args = inl err <-> startServer_handler args = inl err) /\
  (forall t, start_type args = inr t <->
             startServer_handler args = inr {| auth := type_name t |}).
Proof using Type.
  destruct args as [|a rest].
  { unfold start_type, startServer_handler.
    split; [intros err; split; intros [= <-]; reflexivity|].
    intros t. split; discriminate. }
  unfold start_type, startServer_handler. rewrite start_types_lookup.
  destruct (find_type_known a) as [[Hk ->]|[Hnk ->]].
  - rewrite (known_type_nonempty a Hk). apply known_type_cases in Hk.
    destruct Hk as [-> | [-> | ->]]; cbn.
    all: split; [intros err; split; discriminate|].
    all: intros [| |]; split; intros Ht; try discriminate Ht; reflexivity.
  - rewrite known_type_cases in Hnk.
    destruct (String.eqb_spec a "none") as [->|_]; [exfalso; apply Hnk; auto|].
    destruct (String.eqb_spec a "basic") as [->|_]; [exfalso; apply Hnk; auto|].
    destruct (String.eqb_spec a "oauth") as [->|_]; [exfalso; apply Hnk; auto|].
    cbn. split; [intros err; split; intros [= <-]; reflexivity|].
    intros t. split; discriminate.
Qed.

Lemma loop_server_msg (msg : string) (ok : bool) (rest : list recv_server) :
  loop_server (ServerMsg msg ok :: rest)
  = ((if ok then [Print (msg +:+ nl)] else []) ++ fst (loop_server rest),
     snd (loop_server rest)).
Proof. cbn [loop_server]. destruct (loop_server rest). reflexivity. Qed.

(** X25. [loop(server)] does what the first [loop] does and closes the
    server: on the same receptions it prints the same lines and returns
    for the same reason, and [server.Close()] is called exactly when it
    returns, once, after the last line.  A reception from the closed
    message channel prints nothing. *)
Theorem X25_loop_server (sched : list recv) :
  loop_server (map on_server sched)
  = (map (fun msg => Print (msg +:+ nl)) (fst (loop sched))
       ++ (if snd (loop sched) then [Close] else []),
     snd (loop sched)) /\
  count is_Close (fst (loop_server (map on_server sched)))
  = (if snd (loop sched) then 1 else 0) /\
  (forall msg rest, loop_server (ServerMsg msg false :: rest) = loop_server rest).
Proof.
  assert (Hrun : loop_server (map on_server sched)
                 = (map (fun msg => Print (msg +:+ nl)) (fst (loop sched))
                      ++ (if snd (loop sched) then [Close] else []),
                    snd (loop sched))).
  { induction sched as [|[|msg] rest IH]; [reflexivity | reflexivity |].
    cbn [map on_server]. rewrite loop_server_msg, IH, loop_msg. reflexivity. }
  split; [exact Hrun|]. split.
  - rewrite Hrun. cbn [fst]. rewrite count_app.
    rewrite (count_prints is_Close _ (fun msg => msg +:+ nl)) by reflexivity.
    destruct (snd (loop sched)); reflexivity.
  - intros msg rest. rewrite loop_server_msg. destruct (loop_server rest). reflexivity.
Qed.

End Handler.

(** *** A server run: requests until the first POST *)

Section Runs.

Variable quote : string -> string.
Variable decodeBase64 : string -> option string.
Variable h : serverHandler.

(** One request, with what the builder returns should it be called. *)
Local Abbreviation handle :=
  (fun br : (string + string) * Request =>
     ServeHTTP quote decodeBase64 (fst br) h (snd br)).

Lemma serve_all_no_post (rs : list ((string + string) * Request)) :
  Forall (fun br => Method (snd br) <> "POST") rs ->
  stops (serve_all handle rs) = 0.
Proof.
  induction 1 as [|br rs Hbr _ IH]; [reflexivity|].
  unfold serve_all. cbn [flat_map]. rewrite stops_app.
  fold (serve_all handle rs). rewrite IH. cbn beta.
  rewrite (proj2 (stops_by_method quote decodeBase64 (fst br) h (snd br)) Hbr).
  reflexivity.
Qed.

Lemma serve_all_app (rs1 rs2 : list ((string + string) * Request)) :
  serve_all handle (rs1 ++ rs2) = serve_all handle rs1 ++ serve_all handle rs2.
Proof. unfold serve_all. apply flat_map_app. Qed.

(** X10. A server handling requests one after the other keeps running as
    long as none of them is a POST, and stops at the first POST: the
    control loop has then printed the diagnostics of all the earlier
    requests, in order, then the farewell, and nothing of the requests
    that follow. *)
Theorem X10_server_stops_at_first_post
    (before after : list ((string + string) * Request))
    (post : (string + string) * Request) :
  Forall (fun br => Method (snd br) <> "POST") before ->
  Method (snd post) = "POST" ->
  startServer_loop (receptions (serve_all handle before))
  = (msgs (serve_all handle before), false) /\
  startServer_loop (receptions (serve_all handle (before ++ post :: after)))
  = (msgs (serve_all handle before) ++ ["Byebye"], true).
Proof.
  intros Hbefore Hpost.
  pose proof (serve_all_no_post before Hbefore) as Hs.
  split; [exact (startServer_loop_running _ Hs)|].
  rewrite serve_all_app. unfold serve_all at 2. cbn [flat_map].
  fold (serve_all handle after). cbn beta.
  rewrite (proj1 (stops_by_method quote decodeBase64 (fst post) h (snd post)) Hpost).
  cbn [trace fst app].
  change (WriteHeader 200 :: SendStop :: serve_all handle after)
    with ([WriteHeader 200] ++ SendStop :: serve_all handle after).
  rewrite app_assoc.
  rewrite (startServer_loop_stopped (serve_all handle before ++ [WriteHeader 200]) _).
  - rewrite msgs_app. cbn [msgs]. rewrite app_nil_r. reflexivity.
  - rewrite stops_app, Hs. reflexivity.
Qed.

End Runs.

End Server.

(** ** The artifact builder: properties *)

Module BuilderFacts.
Import GoStrings Builder.

Section Facts.

Context {world : Type} `{!OS world}.

Lemma Join_rootfs : GoFilepath.Join ["ACI"; "rootfs"] = "ACI/rootfs".
Proof. reflexivity. Qed.

Lemma Join_manifest : GoFilepath.Join ["ACI"; "manifest"] = "ACI/manifest".
Proof. reflexivity. Qed.

Lemma Join_src : GoFilepath.Join ["ACI/rootfs"; "prog.go"] = "ACI/rootfs/prog.go".
Proof. reflexivity. Qed.

Lemma Join_stamp : GoFilepath.Join ["ACI"; "rootfs"; "stamp"] = "ACI/rootfs/stamp".
Proof. reflexivity. Qed.

(** One call of the run: its reply, and whether it failed when the run
    looks at that. *)
Ltac step :=
  match goal with
  | |- context [sys ?c ?w] =>
      let r := fresh "r" in
      let w' := fresh "w" in
      destruct (sys c w) as [r w'];
      cbn [fst snd app];
      try match goal with
          | |- context [match r_err r with _ => _ end] =>
              let Er := fresh "Er" in
              destruct (r_err r) eqn:Er;
              cbn [fst snd app String.eqb Ascii.eqb Bool.eqb]
          end
  end.

(** The twelve runs of [prepareACI]: a failure at one of eleven calls, or
    none. *)
Ltac exec :=
  cbv [prepareACI_result prepareACI_record run_prepareACI prepareACI
       createTree buildProg buildACI defer bind call ret];
  rewrite ?Join_rootfs, ?Join_manifest, ?Join_src, ?Join_stamp;
  cbn [fst snd app];
  repeat step;
  rewrite ?Join_rootfs, ?Join_stamp.

Ltac settle :=
  cbn [calls map fst snd existsb after_break last touched];
  unfold broke, failed;
  cbn [fst snd is_cleanup negb andb orb];
  repeat match goal with
         | E : r_err ?r = _ |- context [r_err ?r] => rewrite E
         end;
  cbn [negb andb orb after_break existsb].

(** X16. When [prepareACI] returns the image it has made these thirteen
    calls, in this order, and none but the two last, the clean-up, may have
    failed: the tree is made, the program compiled in it, the image built
    and read, the image file removed and then the tree.  The bytes returned
    are the bytes read from the image file. *)
Theorem X16_prepareACI_success (w : world) (image : string) :
  prepareACI_result w = inl image ->
  exists compiler actool timedata read,
    calls (prepareACI_record w)
    = [Mkdir "ACI" perm_dir; Mkdir "ACI/rootfs" perm_dir;
       WriteFile "ACI/manifest" manifestStr perm_file;
       WriteFile "ACI/rootfs/prog.go" testProgSrcStr perm_file;
       LookPath "go";
       Run compiler ["go"; "build"; "-o"; "prog"; "./prog.go"] "ACI/rootfs";
       LookPath "actool"; Now_MarshalBinary;
       WriteFile "ACI/rootfs/stamp" timedata perm_file;
       Run actool ["actool"; "build"; "ACI"; "prog-build.aci"] "";
       ReadFile "prog-build.aci"; Remove "prog-build.aci"; RemoveAll "ACI"] /\
    In (ReadFile "prog-build.aci", read) (prepareACI_record w) /\
    r_err read = None /\ r_data read = image /\
    existsb broke (prepareACI_record w) = false.
Proof.
  revert image. exec; intros image Hres; try discriminate Hres.
  injection Hres as <-.
  exists (r_data r3), (r_data r5), (r_data r6), r9.
  split; [reflexivity|]. split; [cbn; tauto|]. split; [assumption|].
  split; [reflexivity|]. settle. reflexivity.
Qed.

(** Every way an element can be in a recorded list, one after the other;
    what the replies rule out is closed. *)
Ltac in_cases H :=
  cbn [In calls map fst snd] in H;
  repeat (destruct H as [H|H]; [try congruence|]);
  try contradiction.

Ltac decide_iff :=
  first [ split; [intros _; reflexivity | intros _; eexists; reflexivity]
        | split; [intros [e He]; discriminate He | discriminate] ].

(** X17. [prepareACI] returns an error exactly when one of its calls other
    than clean-up fails; a failed clean-up call changes nothing.  After the
    first call that fails, nothing but clean-up is done. *)
Theorem X17_first_failure_ends_work (w : world) :
  ((exists e, prepareACI_result w = inr e) <->
   existsb broke (prepareACI_record w) = true) /\
  ((exists image, prepareACI_result w = inl image) <->
   existsb broke (prepareACI_record w) = false) /\
  forallb (fun cr => is_cleanup (fst cr)) (after_break (prepareACI_record w)) = true.
Proof.
  exec; settle; (split; [decide_iff|]); (split; [decide_iff|]); reflexivity.
Qed.

(** X18. The last thing [prepareACI] does is to remove the tree [ACI],
    unless the call that failed was the making of [ACI] itself or the
    writing of the manifest or of the source: in all other runs, failed or
    not, the tree is removed at the end. *)
Theorem X18_tree_removed_iff (w : world) :
  last (calls (prepareACI_record w)) = Some (RemoveAll "ACI") <->
  ~ exists cr,
      In cr (prepareACI_record w) /\ failed cr = true /\
      (fst cr = Mkdir "ACI" perm_dir \/
       fst cr = WriteFile "ACI/manifest" manifestStr perm_file \/
       fst cr = WriteFile "ACI/rootfs/prog.go" testProgSrcStr perm_file).
Proof.
  exec; cbn [calls map fst last].
  all: first
    [ (* the tree is removed: the call that failed, if any, is no such call *)
      solve [ split; [intros _|reflexivity];
              intros (cr & Hin & Hf & Hc); unfold failed in Hf;
              in_cases Hin; subst cr; cbn [fst snd] in Hf, Hc;
              try (rewrite ?Er, ?Er0, ?Er1, ?Er2 in Hf; discriminate Hf);
              destruct Hc as [Hc|[Hc|Hc]]; discriminate Hc ]
    | (* the tree is not removed: the last call recorded is such a call *)
      split; [discriminate|]; intros Hn; exfalso; apply Hn;
      match goal with
      | |- exists cr, In cr ?l /\ _ =>
          let x := eval cbn in (last l) in
          match x with Some ?cr => exists cr end
      end;
      split; [repeat (first [left; reflexivity | right])|];
      split; [unfold failed; cbn [snd];
              match goal with E : r_err _ = Some _ |- _ => rewrite E end;
              reflexivity|];
      first [left; reflexivity | right; left; reflexivity | right; right; reflexivity] ].
Qed.

(** X19. When the writing of the manifest or of the source fails,
    [prepareACI] makes no clean-up call at all: the directories [ACI] and
    [ACI/rootfs], which it has just made, are left behind. *)
Theorem X19_tree_left_behind (w : world) (cr : syscall * reply) :
  In cr (prepareACI_record w) -> failed cr = true ->
  fst cr = WriteFile "ACI/manifest" manifestStr perm_file \/
  fst cr = WriteFile "ACI/rootfs/prog.go" testProgSrcStr perm_file ->
  existsb is_cleanup (calls (prepareACI_record w)) = false /\
  exists made made',
    In (Mkdir "ACI" perm_dir, made) (prepareACI_record w) /\ r_err made = None /\
    In (Mkdir "ACI/rootfs" perm_dir, made') (prepareACI_record w) /\
    r_err made' = None.
Proof.
  revert cr. exec; intros cr Hin Hf Hc; unfold failed in Hf.
  3,4: split; [reflexivity|]; exists r, r0; cbn; tauto.
  all: exfalso; in_cases Hin; subst cr; cbn [fst snd] in Hf, Hc.
  all: try (rewrite ?Er, ?Er0, ?Er1, ?Er2 in Hf; discriminate Hf).
  all: destruct Hc as [Hc|Hc]; discriminate Hc.
Qed.


(** X21. The image file is removed exactly when [actool] built it: also
    when the reading of the image fails afterwards, and never before it is
    there. *)
Theorem X21_image_removed_iff_built (w : world) :
  In (Remove "prog-build.aci") (calls (prepareACI_record w)) <->
  exists actool r,
    In (Run actool ["actool"; "build"; "ACI"; "prog-build.aci"] "", r)
       (prepareACI_record w) /\
    r_err r = None.
Proof.
  exec.
  all: split;
    [ intros Hin; try (exfalso; in_cases Hin; fail)
    | intros (actool & r' & Hin & He); try (exfalso; in_cases Hin; fail) ].
  all: try (eexists _, _; split; [cbn; eauto 12 | assumption]).
  all: cbn; tauto.
Qed.

(** X23. The builder of the library does the work of the earlier builder
    and tidies up around it.  Once its tree is made, it makes the very
    calls the earlier [prepareACI] makes from there, then removes the
    tree; it returns the image exactly when the earlier one does, the same
    bytes, and an error exactly when the earlier one does. *)
Theorem X23_same_work_as_earlier (w : world) :
  let tree := createTree ([], w) in
  let earlier := BuilderEarlier.prepareACI ([], snd (snd tree)) in
  snd (fst tree) = None ->
  calls (prepareACI_record w)
  = calls (fst (snd tree)) ++ calls (fst (snd earlier)) ++ [RemoveAll "ACI"] /\
  (forall image, prepareACI_result w = inl image <-> fst earlier = (image, None)) /\
  ((exists e, prepareACI_result w = inr e) <-> exists d e, fst earlier = (d, Some e)).
Proof.
  cbv [prepareACI_result prepareACI_record run_prepareACI prepareACI
       createTree buildProg buildACI defer bind call ret
       BuilderEarlier.prepareACI BuilderEarlier.buildProg BuilderEarlier.buildACI].
  rewrite ?Join_rootfs, ?Join_manifest, ?Join_src, ?Join_stamp.
  cbn [fst snd app].
  repeat (step; rewrite ?Join_rootfs, ?Join_stamp); cbn [fst snd app];
    intros Htree; try discriminate Htree;
    repeat match goal with
           | E : r_err ?r = _ |- context [r_err ?r] => rewrite E
           end;
    cbn [fst snd app calls map].
  all: split; [reflexivity|].
  all: split.
  all: try (split; [intros [e He]; discriminate He
                   | intros (d & e & He); discriminate He]).
  all: try (split; [intros _; eexists _, _; reflexivity
                   | intros _; eexists; reflexivity]).
  all: try (intros image; split; intros Hi; discriminate Hi).
  all: intros image; split; intros Hi; injection Hi as <-; reflexivity.
Qed.

End Facts.

End BuilderFacts.

(** ** Instances

    The theorems at concrete requests, with Go's base64 decoding and
    quoting in place of the two library functions. *)

Module Instances.
Import GoStrings GoFilepath GoHTTP Server.

Local Abbreviation serve built :=
  (ServeHTTP GoStrconv.Quote GoBase64.DecodeString built).
Local Abbreviation image := (inl "image" : string + string).

Lemma C1_witness :
  rejected_with 401 (serve image h_basic (request "GET" "/x/prog.aci" None)) /\
  rejected_with 400 (serve image h_basic (request "GET" "/x/prog.aci" (Some "Basic"))) /\
  rejected_with 401 (serve image h_basic (request "GET" "/x/prog.aci" (Some "Bearer x"))) /\
  rejected_with 400 (serve image h_basic (request "GET" "/x/prog.aci" (Some "Basic !!!!"))) /\
  rejected_with 400 (serve image h_basic (request "GET" "/x/prog.aci" (Some "Basic YmFy"))) /\
  rejected_with 401
    (serve image h_basic (request "GET" "/x/prog.aci" (Some "Basic YmFyOndyb25n"))) /\
  serve image h_basic (request "GET" "/x/prog.aci" (Some "Basic YmFyOmJheg=="))
  = ServeHTTP_serve GoStrconv.Quote image
      (request "GET" "/x/prog.aci" (Some "Basic YmFyOmJheg==")).
Proof.
  split.
  { destruct (C1_basic_validation GoStrconv.Quote GoBase64.DecodeString image h_basic
                (request "GET" "/x/prog.aci" None) eq_refl eq_refl) as (H & _).
    apply H. vm_compute. reflexivity. }
  split.
  { destruct (C1_basic_validation GoStrconv.Quote GoBase64.DecodeString image h_basic
                (request "GET" "/x/prog.aci" (Some "Basic")) eq_refl eq_refl)
      as (_ & _ & H & _).
    apply H; vm_compute; [discriminate | lia]. }
  split.
  { destruct (C1_basic_validation GoStrconv.Quote GoBase64.DecodeString image h_basic
                (request "GET" "/x/prog.aci" (Some "Bearer x")) eq_refl eq_refl)
      as (_ & _ & _ & H & _).
    apply (H "Bearer" "x"); [vm_compute; reflexivity | discriminate]. }
  split.
  { destruct (C1_basic_validation GoStrconv.Quote GoBase64.DecodeString image h_basic
                (request "GET" "/x/prog.aci" (Some "Basic !!!!")) eq_refl eq_refl)
      as (_ & _ & _ & _ & H & _).
    apply (H "!!!!"); vm_compute; reflexivity. }
  split.
  { destruct (C1_basic_validation GoStrconv.Quote GoBase64.DecodeString image h_basic
                (request "GET" "/x/prog.aci" (Some "Basic YmFy")) eq_refl eq_refl)
      as (_ & _ & _ & _ & _ & H & _).
    apply (H "YmFy" "bar"); vm_compute; [reflexivity | reflexivity | lia]. }
  split.
  { destruct (C1_basic_validation GoStrconv.Quote GoBase64.DecodeString image h_basic
                (request "GET" "/x/prog.aci" (Some "Basic YmFyOndyb25n")) eq_refl eq_refl)
      as (_ & _ & _ & _ & _ & _ & H & _).
    apply (H "YmFyOndyb25n" "bar:wrong" "bar" "wrong");
      [vm_compute; reflexivity | vm_compute; reflexivity | vm_compute; reflexivity
      | discriminate]. }
  destruct (C1_basic_validation GoStrconv.Quote GoBase64.DecodeString image h_basic
              (request "GET" "/x/prog.aci" (Some "Basic YmFyOmJheg==")) eq_refl eq_refl)
    as (_ & _ & _ & _ & _ & _ & _ & H).
  apply (H "YmFyOmJheg==" "bar:baz"); vm_compute; reflexivity.
Defined.

Lemma C2_witness :
  rejected_with 401 (serve image h_oauth (request "GET" "/x/prog.aci" None)) /\
  rejected_with 400 (serve image h_oauth (request "GET" "/x/prog.aci" (Some "Bearer"))) /\
  rejected_with 401
    (serve image h_oauth (request "GET" "/x/prog.aci" (Some "Basic YmFyOmJheg=="))) /\
  rejected_with 401
    (serve image h_oauth (request "GET" "/x/prog.aci" (Some "Bearer wrongtoken"))) /\
  serve image h_oauth (request "GET" "/x/prog.aci" (Some "Bearer sometoken"))
  = ServeHTTP_serve GoStrconv.Quote image
      (request "GET" "/x/prog.aci" (Some "Bearer sometoken")).
Proof.
  split.
  { destruct (C2_oauth_validation GoStrconv.Quote GoBase64.DecodeString image h_oauth
                (request "GET" "/x/prog.aci" None) eq_refl eq_refl) as (H & _).
    apply H. vm_compute. reflexivity. }
  split.
  { destruct (C2_oauth_validation GoStrconv.Quote GoBase64.DecodeString image h_oauth
                (request "GET" "/x/prog.aci" (Some "Bearer")) eq_refl eq_refl)
      as (_ & _ & H & _).
    apply H; vm_compute; [discriminate | lia]. }
  split.
  { destruct (C2_oauth_validation GoStrconv.Quote GoBase64.DecodeString image h_oauth
                (request "GET" "/x/prog.aci" (Some "Basic YmFyOmJheg==")) eq_refl eq_refl)
      as (_ & _ & _ & H & _).
    apply (H "Basic" "YmFyOmJheg=="); [vm_compute; reflexivity | discriminate]. }
  split.
  { destruct (C2_oauth_validation GoStrconv.Quote GoBase64.DecodeString image h_oauth
                (request "GET" "/x/prog.aci" (Some "Bearer wrongtoken")) eq_refl eq_refl)
      as (_ & _ & _ & _ & H & _).
    apply (H "wrongtoken"); [vm_compute; reflexivity | discriminate]. }
  destruct (C2_oauth_validation GoStrconv.Quote GoBase64.DecodeString image h_oauth
              (request "GET" "/x/prog.aci" (Some "Bearer sometoken")) eq_refl eq_refl)
    as (_ & _ & _ & _ & _ & H).
  apply H. vm_compute. reflexivity.
Defined.

Lemma C10_witness :
  (rejected_with 401
     (serve image h_basic (request "GET" "/x/prog.aci" (Some "basic YmFyOmJheg=="))) /\
   ~ accepted GoStrconv.Quote GoBase64.DecodeString h_basic
       (request "GET" "/x/prog.aci" (Some "basic YmFyOmJheg=="))) /\
  (rejected_with 401
     (serve image h_oauth (request "GET" "/x/prog.aci" (Some "bearer sometoken"))) /\
   ~ accepted GoStrconv.Quote GoBase64.DecodeString h_oauth
       (request "GET" "/x/prog.aci" (Some "bearer sometoken"))).
Proof.
  split.
  - apply (C10_scheme_is_case_sensitive GoStrconv.Quote GoBase64.DecodeString image
             h_basic (request "GET" "/x/prog.aci" (Some "basic YmFyOmJheg=="))
             "Basic" "basic" "YmFyOmJheg==").
    + reflexivity.
    + left. split; reflexivity.
    + vm_compute. reflexivity.
    + discriminate.
  - apply (C10_scheme_is_case_sensitive GoStrconv.Quote GoBase64.DecodeString image
             h_oauth (request "GET" "/x/prog.aci" (Some "bearer sometoken"))
             "Bearer" "bearer" "sometoken").
    + reflexivity.
    + right. split; reflexivity.
    + vm_compute. reflexivity.
    + discriminate.
Defined.

(** C3 as the specification words it fails: one message for every GET but
    the accepted [prog.aci] one, and two for that one.  An accepted GET
    for another path sends two messages, and the accepted [prog.aci] one
    sends three. *)
Lemma C3_counterexample :
  ~ (forall (h : serverHandler) (r : Request),
       Method r = "GET" -> known_type (auth h) ->
       let t := trace (serve image h r) in
       let served :=
         accepted GoStrconv.Quote GoBase64.DecodeString h r /\
         Base (Path (Url r)) = "prog.aci" in
       (served -> length (msgs t) = 2) /\ (~ served -> length (msgs t) = 1)).
Proof.
  intros Hclaim.
  destruct (Hclaim h_none (request "GET" "/x/other" None) eq_refl) as [_ Hone].
  { vm_compute. auto. }
  assert (Hlen : length (msgs (trace (serve image h_none (request "GET" "/x/other" None)))) = 1).
  { apply Hone. intros [_ Hbase]. vm_compute in Hbase. discriminate Hbase. }
  vm_compute in Hlen. discriminate Hlen.
Qed.

Lemma C3_witness :
  (exists result,
     msgs (trace (serve image h_basic
                    (request "GET" "/x/prog.aci" (Some "Basic YmFyOmJheg=="))))
     = ["Trying to serve " +:+ GoStrconv.Quote "/x/prog.aci"; "  serving"; result] /\
     (result = "    done." \/ exists err, result = "    failed (" +:+ err +:+ ")")) /\
  msgs (trace (serve image h_none (request "GET" "/x/other" None)))
  = ["Trying to serve " +:+ GoStrconv.Quote "/x/other"; "  not found."] /\
  exists m,
    msgs (trace (serve image h_oauth (request "GET" "/x/prog.aci" (Some "Bearer nope"))))
    = [m].
Proof.
  split.
  { destruct (C3_diagnostics_per_get GoStrconv.Quote GoBase64.DecodeString image h_basic
                (request "GET" "/x/prog.aci" (Some "Basic YmFyOmJheg=="))
                eq_refl ltac:(vm_compute; auto)) as (_ & _ & H).
    apply H; vm_compute; reflexivity. }
  split.
  { destruct (C3_diagnostics_per_get GoStrconv.Quote GoBase64.DecodeString image h_none
                (request "GET" "/x/other" None)
                eq_refl ltac:(vm_compute; auto)) as (_ & H & _).
    apply H; [vm_compute; reflexivity | vm_compute; discriminate]. }
  destruct (C3_diagnostics_per_get GoStrconv.Quote GoBase64.DecodeString image h_oauth
              (request "GET" "/x/prog.aci" (Some "Bearer nope"))
              eq_refl ltac:(vm_compute; auto)) as (H & _).
  apply H. vm_compute. discriminate.
Defined.

Lemma C4_witness :
  serve image h_basic (request "POST" "/anything" None)
  = ([WriteHeader 200; SendStop], Returned) /\
  serve (inr "no compiler") {| auth := "digest" |}
    (request "POST" "/x/prog.aci" (Some "Basic YmFyOndyb25n"))
  = ([WriteHeader 200; SendStop], Returned).
Proof.
  split.
  - apply (C4_post_stops GoStrconv.Quote GoBase64.DecodeString image h_basic
             (request "POST" "/anything" None)). reflexivity.
  - apply (C4_post_stops GoStrconv.Quote GoBase64.DecodeString (inr "no compiler")
             {| auth := "digest" |}
             (request "POST" "/x/prog.aci" (Some "Basic YmFyOndyb25n"))). reflexivity.
Defined.

Lemma C5_witness :
  (let t := trace (serve image h_oauth
                     (request "GET" "/x/prog.aci/" (Some "Bearer sometoken"))) in
   status t = 200 /\ body t = "image") /\
  (let t := trace (serve (inr "no compiler") h_oauth
                     (request "GET" "/x/prog.aci/" (Some "Bearer sometoken"))) in
   status t = 500 /\ body t = "" /\
   msgs t = ["Trying to serve " +:+ GoStrconv.Quote "/x/prog.aci/"; "  serving";
             "    failed (no compiler)"]).
Proof.
  split.
  - destruct (C5_prog_aci_served GoStrconv.Quote GoBase64.DecodeString image h_oauth
                (request "GET" "/x/prog.aci/" (Some "Bearer sometoken")))
      as (_ & Hok & _); [vm_compute; reflexivity .. |].
    destruct (Hok "image" eq_refl) as (Hs & Hb & _). split; assumption.
  - destruct (C5_prog_aci_served GoStrconv.Quote GoBase64.DecodeString (inr "no compiler")
                h_oauth (request "GET" "/x/prog.aci/" (Some "Bearer sometoken")))
      as (_ & _ & Hfail); [vm_compute; reflexivity .. |].
    exact (Hfail "no compiler" eq_refl).
Defined.

Lemma C7_witness :
  accepted GoStrconv.Quote GoBase64.DecodeString h_none
    (request "GET" "/x/prog.aci" (Some "Basic YmFyOndyb25n")) /\
  builds (trace (serve image h_none
                   (request "GET" "/x/prog.aci" (Some "Basic YmFyOndyb25n")))) = 1 /\
  status (trace (serve image h_none (request "GET" "/x/prog" None))) = 404.
Proof.
  split.
  { apply (C7_none_accepts_all GoStrconv.Quote GoBase64.DecodeString image h_none
             (request "GET" "/x/prog.aci" (Some "Basic YmFyOndyb25n"))); reflexivity. }
  split.
  { destruct (C7_none_accepts_all GoStrconv.Quote GoBase64.DecodeString image h_none
                (request "GET" "/x/prog.aci" (Some "Basic YmFyOndyb25n"))
                eq_refl eq_refl) as (_ & _ & H & _).
    apply H. vm_compute. reflexivity. }
  destruct (C7_none_accepts_all GoStrconv.Quote GoBase64.DecodeString image h_none
              (request "GET" "/x/prog" None) eq_refl eq_refl) as (_ & _ & _ & H).
  apply H. vm_compute. discriminate.
Defined.

Lemma C8_witness :
  serve image h_basic (request "PUT" "/x/prog.aci" (Some "Basic YmFyOmJheg=="))
  = ([WriteHeader 405], Returned) /\
  serve image {| auth := "digest" |} (request "get" "/x/prog.aci" None)
  = ([WriteHeader 405], Returned).
Proof.
  split.
  - apply (C8_other_method_not_allowed GoStrconv.Quote GoBase64.DecodeString image h_basic
             (request "PUT" "/x/prog.aci" (Some "Basic YmFyOmJheg=="))); discriminate.
  - apply (C8_other_method_not_allowed GoStrconv.Quote GoBase64.DecodeString image
             {| auth := "digest" |} (request "get" "/x/prog.aci" None)); discriminate.
Defined.

(** *** Further runs *)

(** A header that is there with an empty value is, for the handler, no
    header: [Header.Get] gives the empty string for both. *)
Example empty_authorization_value :
  serve image h_basic (request "GET" "/x/prog.aci" (Some ""))
  = serve image h_basic (request "GET" "/x/prog.aci" None) /\
  rejected_with 401 (serve image h_basic (request "GET" "/x/prog.aci" (Some ""))).
Proof. split; [vm_compute; reflexivity | split; reflexivity]. Qed.

(** Two spaces make three pieces. *)
Example two_spaces_malformed :
  rejected_with 400
    (serve image h_oauth (request "GET" "/x/prog.aci" (Some "Bearer  sometoken"))).
Proof. split; reflexivity. Qed.

(** The base of a path ignores trailing slashes. *)
Example base_ignores_trailing_slash :
  Base "/x/prog.aci//" = "prog.aci" /\ Base "/x/prog.aci/y" = "y" /\
  Base "" = "." /\ Base "//" = "/".
Proof. repeat split; reflexivity. Qed.

Example start_with_unknown_type :
  startServer_handler GoStrconv.Quote ["digest"]
  = inl ("wrong type " +:+ GoStrconv.Quote "digest" +:+ ", should, be none, basic, oauth")
  /\ startServer_handler GoStrconv.Quote ["Basic"]
     = inl ("wrong type " +:+ GoStrconv.Quote "Basic" +:+ ", should, be none, basic, oauth")
  /\ startServer_handler GoStrconv.Quote ["oauth"; "extra"] = inr h_oauth.
Proof. repeat split; reflexivity. Qed.

Example loop_until_stop :
  startServer_loop [RecvMsg "Trying to serve"; RecvMsg "  not found."; RecvStop; RecvMsg "late"]
  = (["Trying to serve"; "  not found."; "Byebye"], true) /\
  startServer_loop [RecvMsg "Trying to serve"; RecvMsg "  not found."]
  = (["Trying to serve"; "  not found."], false).
Proof. split; reflexivity. Qed.

(** *** Further properties at concrete requests *)

Lemma X1_witness :
  getAuthPayload (request "GET" "/x/prog.aci" (Some "Bearer sometoken")) "Bearer"
  = inl "sometoken".
Proof.
  apply (X1_getAuthPayload_payload_iff
           (request "GET" "/x/prog.aci" (Some "Bearer sometoken")) "Bearer" "sometoken").
  - reflexivity.
  - split; vm_compute; reflexivity.
Defined.

Lemma X2_witness :
  accepted GoStrconv.Quote GoBase64.DecodeString h_oauth
    (request "GET" "/x/prog.aci" (Some "Bearer sometoken")) /\
  ~ accepted GoStrconv.Quote GoBase64.DecodeString h_oauth
      (request "GET" "/x/prog.aci" (Some "Bearer sometoken ")).
Proof.
  split.
  - apply (X2_oauth_accepted_iff GoStrconv.Quote GoBase64.DecodeString h_oauth
             (request "GET" "/x/prog.aci" (Some "Bearer sometoken")) eq_refl).
    vm_compute. reflexivity.
  - intros Hacc.
    apply (X2_oauth_accepted_iff GoStrconv.Quote GoBase64.DecodeString h_oauth
             (request "GET" "/x/prog.aci" (Some "Bearer sometoken ")) eq_refl) in Hacc.
    vm_compute in Hacc. discriminate Hacc.
Defined.

Lemma X3_witness :
  accepted GoStrconv.Quote GoBase64.DecodeString h_basic
    (request "GET" "/x/prog.aci" (Some "Basic YmFyOmJheg==")).
Proof.
  apply (X3_basic_accepted_iff GoStrconv.Quote GoBase64.DecodeString h_basic
           (request "GET" "/x/prog.aci" (Some "Basic YmFyOmJheg==")) eq_refl).
  exists "YmFyOmJheg==". repeat split; vm_compute; reflexivity.
Defined.

Lemma X4_witness :
  status (trace (serve image h_basic (request "GET" "/x/prog.aci" None))) <> 200.
Proof.
  destruct (X4_status_codes GoStrconv.Quote GoBase64.DecodeString image h_basic
              (request "GET" "/x/prog.aci" None)) as [_ Hiff].
  { vm_compute. auto. }
  intros Hs. apply Hiff in Hs. destruct Hs as [Hm|(_ & Hacc & _)].
  - discriminate Hm.
  - vm_compute in Hacc. discriminate Hacc.
Defined.

Lemma X5_witness :
  accepted GoStrconv.Quote GoBase64.DecodeString h_none (request "GET" "/x/prog.aci" None)
  /\ image = inl (body (trace (serve image h_none (request "GET" "/x/prog.aci" None)))).
Proof.
  destruct (X5_body_only_when_accepted GoStrconv.Quote GoBase64.DecodeString image h_none
              (request "GET" "/x/prog.aci" None)) as (_ & Hacc & _ & Hb).
  { vm_compute. discriminate. }
  split; assumption.
Defined.

Lemma X10_witness :
  startServer_loop
    (receptions
       (serve_all
          (fun br => ServeHTTP GoStrconv.Quote GoBase64.DecodeString (fst br) h_oauth (snd br))
          ([(image, request "GET" "/x/other" (Some "Bearer sometoken"));
            (image, request "GET" "/x/prog.aci" None)]
             ++ (image, request "POST" "/" None)
             :: [(image, request "GET" "/x/prog.aci" (Some "Bearer sometoken"))])))
  = (msgs
       (serve_all
          (fun br => ServeHTTP GoStrconv.Quote GoBase64.DecodeString (fst br) h_oauth (snd br))
          [(image, request "GET" "/x/other" (Some "Bearer sometoken"));
           (image, request "GET" "/x/prog.aci" None)])
       ++ ["Byebye"],
     true).
Proof.
  apply (X10_server_stops_at_first_post GoStrconv.Quote GoBase64.DecodeString h_oauth
           [(image, request "GET" "/x/other" (Some "Bearer sometoken"));
            (image, request "GET" "/x/prog.aci" None)]
           [(image, request "GET" "/x/prog.aci" (Some "Bearer sometoken"))]
           (image, request "POST" "/" None)).
  - repeat constructor; discriminate.
  - reflexivity.
Defined.

Lemma X14_witness :
  snd (stopServer GoStrconv.Quote ["https://127.0.0.1:4000"]
         (fun _ => inl ("200 OK",
                        Z.of_nat (status (trace (serve image h_basic
                                                   (request "POST" "/" None)))))))
  = None.
Proof.
  rewrite (X14_stopServer_accepts_handler_answer GoStrconv.Quote GoBase64.DecodeString
             image h_basic (request "POST" "/" None) "https://127.0.0.1:4000" "200 OK" []
             eq_refl).
  reflexivity.
Defined.

Lemma X22_witness :
  serve image h_basic (request "GET" "/x/prog.aci" (Some "Basic YmFyOndyb25n"))
  = serve image h_basic (request "GET" "/nothing/here" (Some "Basic YmFyOndyb25n")).
Proof.
  apply (X22_rejection_hides_path GoStrconv.Quote GoBase64.DecodeString image h_basic
           (request "GET" "/x/prog.aci" (Some "Basic YmFyOndyb25n"))
           (request "GET" "/nothing/here" (Some "Basic YmFyOndyb25n")));
    try reflexivity.
  vm_compute. discriminate.
Defined.

End Instances.

(** ** The builder on the small file system *)

Module BuilderInstances.
Import GoStrings Builder BuilderFacts.

Lemma X16_witness :
  exists read,
    In (ReadFile "prog-build.aci", read) (prepareACI_record toy_ready) /\
    r_data read = "image of ACI" /\
    entries (snd (run_prepareACI toy_ready)) = ∅.
Proof.
  destruct (X16_prepareACI_success toy_ready "image of ACI")
    as (compiler & actool & timedata & read & _ & Hin & _ & Hdata & _).
  { vm_compute. reflexivity. }
  exists read. split; [exact Hin|]. split; [exact Hdata|]. vm_compute. reflexivity.
Defined.

Lemma X19_witness :
  existsb is_cleanup
    (calls (prepareACI_record (with_entries toy_ready {[ "ACI/manifest" := None ]})))
  = false.
Proof.
  apply (X19_tree_left_behind (with_entries toy_ready {[ "ACI/manifest" := None ]})
           (WriteFile "ACI/manifest" manifestStr perm_file,
            ko "open ACI/manifest: is a directory")).
  - vm_compute. auto.
  - reflexivity.
  - left. reflexivity.
Defined.


Lemma X23_witness :
  calls (prepareACI_record toy_ready)
  = calls (fst (snd (createTree ([], toy_ready))))
      ++ calls (fst (snd (BuilderEarlier.prepareACI
                            ([], snd (snd (createTree ([], toy_ready)))))))
      ++ [RemoveAll "ACI"].
Proof.
  apply (X23_same_work_as_earlier toy_ready). vm_compute. reflexivity.
Defined.

End BuilderInstances.
